(** * Shallow embedding of the teiko-technical cell-count pipeline

    Sources: [common.py], [relative_cell_counter.py], [relative_cell_counts.py]
    and [cell_treatment_analyzer.py].  Python exceptions are modelled by an
    error result; dicts by association lists with Python's insertion-order
    semantics; CSV rows by lists of strings. *)

From Stdlib Require Import List String Ascii ZArith QArith Lia Lqa Permutation.
From Stdlib Require Import DecimalString DecimalN Qabs.
Import ListNotations.
Open Scope string_scope.
Open Scope nat_scope.

(* ------------------------------------------------------------------ *)
(** ** Python exceptions and the error monad *)

Inductive py_error : Type :=
| KeyError
| IndexError
| ValueError
| ZeroDivisionError
| TypeError
| OverflowError.

Inductive result (A : Type) : Type :=
| Ok (a : A)
| Err (e : py_error).
Arguments Ok {A} a.
Arguments Err {A} e.

Definition bind {A B} (m : result A) (k : A -> result B) : result B :=
  match m with
  | Ok a => k a
  | Err e => Err e
  end.

Notation "x <- m ;; k" := (bind m (fun x => k))
  (at level 61, m at next level, right associativity).

(** A [for] loop threading an accumulator, stopping at the first exception. *)
Fixpoint foldM {A B} (f : A -> B -> result A) (a : A) (l : list B) : result A :=
  match l with
  | [] => Ok a
  | b :: l' => a' <- f a b ;; foldM f a' l'
  end.

(* ------------------------------------------------------------------ *)
(** ** Python dicts keyed by [str]

    A dict is an association list in insertion order.  [d[k] = v] updates
    an existing key in place and appends a new key at the end. *)

Definition dict (V : Type) : Type := list (string * V).

Fixpoint dict_get {V} (d : dict V) (k : string) : option V :=
  match d with
  | [] => None
  | (k', v) :: d' => if String.eqb k k' then Some v else dict_get d' k
  end.

Fixpoint dict_set {V} (d : dict V) (k : string) (v : V) : dict V :=
  match d with
  | [] => [(k, v)]
  | (k', v') :: d' =>
      if String.eqb k k' then (k', v) :: d' else (k', v') :: dict_set d' k v
  end.

(** [d[k]]: raises [KeyError] on a missing key. *)
Definition dict_index {V} (d : dict V) (k : string) : result V :=
  match dict_get d k with
  | Some v => Ok v
  | None => Err KeyError
  end.

(** [lst[i]] for a non-negative index: raises [IndexError] out of range. *)
Definition list_index {A} (l : list A) (i : nat) : result A :=
  match nth_error l i with
  | Some a => Ok a
  | None => Err IndexError
  end.

(** [list.index(x)]: position of the first occurrence. *)
Fixpoint py_index (l : list string) (x : string) : option nat :=
  match l with
  | [] => None
  | y :: l' =>
      if String.eqb x y then Some 0
      else match py_index l' x with Some i => Some (S i) | None => None end
  end.

(** [x in l] *)
Definition py_in (x : string) (l : list string) : bool :=
  existsb (String.eqb x) l.

(* ------------------------------------------------------------------ *)
(** ** CSV data (common.py) *)

Definition CsvHeaders : Type := dict nat.
Definition Row : Type := list string.
Definition Csv : Type := list Row.

(** [csv_row[csv_headers[key]]] *)
Definition field (hdrs : CsvHeaders) (row : Row) (key : string) : result string :=
  i <- dict_index hdrs key ;; list_index row i.

Inductive cell_type : Type :=
| B_CELL
| CD8_T_CELL
| CD4_T_CELL
| NK_CELL
| MONOCYTE.

(** [CELL_TYPES] is a [StrEnum] built with the functional API and a list of
    names, so each member's string value is its lower-cased name. *)
Definition cell_type_value (c : cell_type) : string :=
  match c with
  | B_CELL => "b_cell"
  | CD8_T_CELL => "cd8_t_cell"
  | CD4_T_CELL => "cd4_t_cell"
  | NK_CELL => "nk_cell"
  | MONOCYTE => "monocyte"
  end.

Definition CELL_TYPES : list cell_type :=
  [B_CELL; CD8_T_CELL; CD4_T_CELL; NK_CELL; MONOCYTE].

Definition SAMPLE_HEADER : string := "sample".

(** common.get_csv_headers *)
Definition get_csv_headers (header_row : Row) (required_headers : list string)
  : result CsvHeaders :=
  if negb (forallb (fun header => py_in header header_row) required_headers)
  then Err ValueError
  else foldM (fun csv_headers header =>
                match py_index header_row header with
                | Some i => Ok (dict_set csv_headers header i)
                | None => Err ValueError
                end) [] required_headers.

(** relative_cell_counts.get_csv_headers: the same resolver with the
    required headers fixed to the sample column and the five cell types. *)
Definition get_csv_headers_fixed (header_row : Row) : result CsvHeaders :=
  get_csv_headers header_row (SAMPLE_HEADER :: map cell_type_value CELL_TYPES).

(* ------------------------------------------------------------------ *)
(** ** Python's [int(str)], [float(str)], [str(int)] and ["{:.2f}"]

    [int] and [float] strip surrounding whitespace (the ASCII characters
    [str.isspace] accepts), take an optional sign and decimal digits; [float]
    also takes one decimal point.  Python additionally accepts digit
    underscores, exponents and the words [inf]/[nan]; those forms are not
    produced anywhere in this pipeline and are not modelled (they parse to
    [None], i.e. [ValueError]).  A [float] is modelled by its exact decimal
    value in [Q]. *)

Definition is_ws (a : ascii) : bool :=
  let n := nat_of_ascii a in
  ((9 <=? n) && (n <=? 13)) || ((28 <=? n) && (n <=? 32)).

Fixpoint lstrip (s : string) : string :=
  match s with
  | EmptyString => EmptyString
  | String a s' => if is_ws a then lstrip s' else s
  end.

Fixpoint rstrip (s : string) : string :=
  match s with
  | EmptyString => EmptyString
  | String a s' =>
      let r := rstrip s' in
      if String.eqb r "" && is_ws a then EmptyString else String a r
  end.

Definition py_strip (s : string) : string := rstrip (lstrip s).

Definition split_sign (s : string) : bool * string :=
  match s with
  | String a r =>
      if Ascii.eqb a "-"%char then (true, r)
      else if Ascii.eqb a "+"%char then (false, r)
      else (false, s)
  | EmptyString => (false, s)
  end.

(** Value of a string of decimal digits; the empty string reads as 0. *)
Definition digits_N (s : string) : option N :=
  match NilEmpty.uint_of_string s with
  | Some d => Some (N.of_uint d)
  | None => None
  end.

Fixpoint split_dot (s : string) : string * option string :=
  match s with
  | EmptyString => (EmptyString, None)
  | String a s' =>
      if Ascii.eqb a "."%char then (EmptyString, Some s')
      else let (ip, fp) := split_dot s' in (String a ip, fp)
  end.

Definition parse_int (s : string) : option Z :=
  let (neg, body) := split_sign (py_strip s) in
  if String.eqb body "" then None
  else match digits_N body with
       | Some n => Some (if neg then (- Z.of_N n)%Z else Z.of_N n)
       | None => None
       end.

Definition parse_float (s : string) : option Q :=
  let (neg, body) := split_sign (py_strip s) in
  let mag :=
    match split_dot body with
    | (ip, None) =>
        if String.eqb ip "" then None
        else match digits_N ip with
             | Some a => Some (inject_Z (Z.of_N a))
             | None => None
             end
    | (ip, Some fp) =>
        if String.eqb ip "" && String.eqb fp "" then None
        else match digits_N ip, digits_N fp with
             | Some a, Some b =>
                 Some (inject_Z (Z.of_N a)
                       + inject_Z (Z.of_N b) / inject_Z (10 ^ Z.of_nat (String.length fp)))%Q
             | _, _ => None
             end
    end in
  match mag with
  | Some q => Some (if neg then (- q)%Q else q)
  | None => None
  end.

(** [int(s)] *)
Definition py_int (s : string) : result Z :=
  match parse_int s with Some z => Ok z | None => Err ValueError end.

(** [float(s)] *)
Definition py_float (s : string) : result Q :=
  match parse_float s with Some q => Ok q | None => Err ValueError end.

(** Truthiness of [dict.get(k)] for a float-valued dict: [None] and [0.0]
    are falsy. *)
Definition truthy_opt (o : option Q) : bool :=
  match o with
  | None => false
  | Some q => negb (Qeq_bool q 0)
  end.

Definition str_N (n : N) : string := NilZero.string_of_uint (N.to_uint n).

(** [str(z)] for an [int] *)
Definition str_Z (z : Z) : string :=
  if (z <? 0)%Z then String "-" (str_N (Z.to_N (- z))) else str_N (Z.to_N z).

(** Nearest integer to [a / b] ([b > 0]), ties to even. *)
Definition round_half_even (a b : Z) : Z :=
  let q := (a / b)%Z in
  let r := (a mod b)%Z in
  if (2 * r <? b)%Z then q
  else if (b <? 2 * r)%Z then (q + 1)%Z
  else if Z.even q then q else (q + 1)%Z.

Definition digit_char (d : Z) : ascii := ascii_of_nat (48 + Z.to_nat d).

(** Two-decimal rendering of an exact rational: the magnitude rounded to
    hundredths (ties to even), with a minus sign for negative values.  Applied
    to the exact binary value of a double it is Python's [f"{x:.2f}"]. *)
Definition format_2f (x : Q) : string :=
  let h := round_half_even (100 * Z.abs (Qnum x)) (Zpos (Qden x)) in
  let body := str_Z (h / 100)
              ++ String "." (String (digit_char ((h mod 100) / 10))
                               (String (digit_char (h mod 10)) EmptyString)) in
  if (Qnum x <? 0)%Z then String "-" body else body.

(** ** Python floats (IEEE 754 binary64)

    A finite double is a sign and a magnitude [k * 2^-1074] with [k] a
    natural number below [2^2098]; every double has this form (subnormals
    included).  The sign is kept apart so that [-0.0] exists. *)
Inductive float64 : Type :=
| PyFinite (neg : bool) (mag : Q)
| PyInf (neg : bool).

Definition bin_val (k : Z) : Q := Qmake k (2 ^ 1074)%positive.

(** Round-to-nearest-even of [n / d] ([n >= 0], [d > 0]) to binary64, as a
    multiple [k] of [2^-1074]: with [N = n * 2^1074], the unit in the last
    place is [2^s] where [s = max(log2(N / d) - 52, 0)] (53 significant bits,
    or the subnormal spacing); [None] when the rounded value is [2^1024] or
    more (overflow). *)
Definition round_binary64 (n d : Z) : option Z :=
  let N := (n * 2 ^ 1074)%Z in
  let s := Z.max (Z.log2 (N / d) - 52) 0 in
  let k := (round_half_even N (d * 2 ^ s) * 2 ^ s)%Z in
  if (2 ^ 2098 <=? k)%Z then None else Some k.

(** [a / b] on two [int]s: CPython's true division is correctly rounded,
    raises [ZeroDivisionError] for [b = 0] and [OverflowError] when the
    result is too large for a float. *)
Definition py_true_div (a b : Z) : result float64 :=
  if (b =? 0)%Z then Err ZeroDivisionError
  else match round_binary64 (Z.abs a) (Z.abs b) with
       | Some k => Ok (PyFinite (xorb (a <? 0)%Z (b <? 0)%Z) (bin_val k))
       | None => Err OverflowError
       end.

(** [x * k] for a float [x] and a positive [int] [k] that converts to a
    float exactly (as [100] does): the correctly rounded product, infinite
    on overflow. *)
Definition float_mul_pos (x : float64) (k : positive) : float64 :=
  match x with
  | PyFinite neg mag =>
      match round_binary64 (Qnum mag * Zpos k) (Zpos (Qden mag)) with
      | Some m => PyFinite neg (bin_val m)
      | None => PyInf neg
      end
  | PyInf neg => PyInf neg
  end.

(** [f"{x:.2f}"] for a float: the exact binary value rounded to hundredths
    (ties to even), with a minus sign whenever the sign bit is set (so
    [-0.0] gives ["-0.00"]). *)
Definition format_float_2f (x : float64) : string :=
  match x with
  | PyFinite neg mag => if neg then String "-" (format_2f mag) else format_2f mag
  | PyInf neg => if neg then "-inf" else "inf"
  end.

(* ------------------------------------------------------------------ *)
(** ** relative_cell_counter.py *)

Definition OUTPUT_HEADERS : list string :=
  ["sample"; "total_count"; "population"; "count"; "percentage"].

(** get_output_csv_row: [percentage = (count / total_count) * 100] in double
    precision, rendered with [f"{percentage:.2f}"]. *)
Definition get_output_csv_row (sample : string) (total_count : Z)
    (population : string) (count : Z) : result Row :=
  q <- py_true_div count total_count ;;
  let percentage := float_mul_pos q 100 in
  Ok [sample; str_Z total_count; population; str_Z count; format_float_2f percentage].

(** First loop of convert_sample_cell_count: parse each cell-type column,
    accumulating the total and the per-type counts. *)
Definition count_cells (csv_headers : CsvHeaders) (csv_row : Row)
  : result (Z * dict Z) :=
  foldM (fun acc cell_type =>
           let '(total_count, cell_counts) := acc in
           s <- field csv_headers csv_row (cell_type_value cell_type) ;;
           cell_count <- py_int s ;;
           Ok ((total_count + cell_count)%Z,
               dict_set cell_counts (cell_type_value cell_type) cell_count))
        (0%Z, []) CELL_TYPES.

Definition convert_sample_cell_count (csv_headers : CsvHeaders) (csv_row : Row)
  : result Csv :=
  acc <- count_cells csv_headers csv_row ;;
  let '(total_count, cell_counts) := acc in
  sample <- field csv_headers csv_row SAMPLE_HEADER ;;
  foldM (fun output_rows cell_type =>
           n <- dict_index cell_counts (cell_type_value cell_type) ;;
           r <- get_output_csv_row sample total_count (cell_type_value cell_type) n ;;
           Ok (output_rows ++ [r])%list)
        [] CELL_TYPES.

Definition convert_cell_count (csv_headers : CsvHeaders) (csv_rows : Csv)
  : result Csv :=
  foldM (fun output_csv csv_row =>
           rows <- convert_sample_cell_count csv_headers csv_row ;;
           Ok (output_csv ++ rows)%list)
        [OUTPUT_HEADERS] csv_rows.

(* ------------------------------------------------------------------ *)
(** ** cell_treatment_analyzer.py *)

Definition TREATMENT_HEADER : string := "treatment".
Definition TREATMENT : string := "tr1".
Definition SAMPLE_TYPE_HEADER : string := "sample_type".
Definition INCLUDE_SAMPLE_TYPES : list string := ["PBMC"].
Definition RESPONSE_HEADER : string := "response".
Definition RESPONDING : string := "y".
Definition NONRESPONDING : string := "n".

(** The members of [RELATIVE_HEADERS] used as keys: [POPULATION] and
    [PERCENTAGE] (lower-cased names, as for [CELL_TYPES]). *)
Definition POPULATION_HEADER : string := "population".
Definition PERCENTAGE_HEADER : string := "percentage".

(** One iteration of the loop of get_sample_relative. *)
Definition sample_relative_step (relative_headers : CsvHeaders) (sample_id : string)
    (sample_responders : dict Q) (csv_row : Row) : result (dict Q) :=
  s <- field relative_headers csv_row SAMPLE_HEADER ;;
  if String.eqb s sample_id then
    cell_type <- field relative_headers csv_row POPULATION_HEADER ;;
    if truthy_opt (dict_get sample_responders cell_type) then Err ValueError
    else
      p <- field relative_headers csv_row PERCENTAGE_HEADER ;;
      population_percentage <- py_float p ;;
      Ok (dict_set sample_responders cell_type population_percentage)
  else Ok sample_responders.

(** get_sample_relative *)
Definition get_sample_relative (relative_headers : CsvHeaders) (relative_csv : Csv)
    (sample_id : string) : result (dict Q) :=
  foldM (sample_relative_step relative_headers sample_id) [] relative_csv.

(** [for cell_type, relative_count in sample_relative_count.items():
        population_counter[cell_type].append(relative_count)] *)
Definition append_all (population_counter : dict (list Q)) (sample_relative_count : dict Q)
  : result (dict (list Q)) :=
  foldM (fun counter kv =>
           let '(cell_type, relative_count) := kv in
           l <- dict_index counter cell_type ;;
           Ok (dict_set counter cell_type (l ++ [relative_count])%list))
        population_counter sample_relative_count.

(** The two accumulators (responders, non-responders).  [population_counter]
    aliases one of them; the append through it is written back to that one. *)
Definition responders_state : Type := dict (list Q) * dict (list Q).

Definition init_counter : dict (list Q) :=
  fold_left (fun d cell_type => dict_set d (cell_type_value cell_type) []) CELL_TYPES [].

Definition init_state : responders_state := (init_counter, init_counter).

(** One iteration of the loop over [treatment_csv]. *)
Definition responders_step (treatment_headers : CsvHeaders) (relative_headers : CsvHeaders)
    (relative_csv : Csv) (st : responders_state) (sample : Row) : result responders_state :=
  let '(population_responders, population_nonresponders) := st in
  t <- field treatment_headers sample TREATMENT_HEADER ;;
  if String.eqb t TREATMENT then
    sty <- field treatment_headers sample SAMPLE_TYPE_HEADER ;;
    if py_in sty INCLUDE_SAMPLE_TYPES then
      sample_id <- field treatment_headers sample SAMPLE_HEADER ;;
      sample_relative_count <- get_sample_relative relative_headers relative_csv sample_id ;;
      resp <- field treatment_headers sample RESPONSE_HEADER ;;
      if String.eqb resp RESPONDING then
        r' <- append_all population_responders sample_relative_count ;;
        Ok (r', population_nonresponders)
      else
        n' <- append_all population_nonresponders sample_relative_count ;;
        Ok (population_responders, n')
    else Ok st
  else Ok st.

Definition calculate_responders (treatment_headers : CsvHeaders) (treatment_csv : Csv)
    (relative_headers : CsvHeaders) (relative_csv : Csv) : result responders_state :=
  foldM (responders_step treatment_headers relative_headers relative_csv)
        init_state treatment_csv.

(* ------------------------------------------------------------------ *)
(** ** Reading CSV files (common.py, relative_cell_counts.py)

    [list(csv.reader(file, delimiter=delimiter))] for the file at a path is
    [read_rows path delimiter]; opening or decoding the file may raise. *)

Section ReadCsv.
Variable read_rows : string -> string -> result Csv.

(** common.read_csv *)
Definition read_csv (csv_path : string) (required_headers : list string) (delimiter : string)
  : result (CsvHeaders * Csv) :=
  csv_rows <- read_rows csv_path delimiter ;;
  match csv_rows with
  | [] => Err ValueError
  | header_row :: csv_rows' =>
      h <- get_csv_headers header_row required_headers ;;
      Ok (h, csv_rows')
  end.

(** relative_cell_counts.read_csv *)
Definition read_csv_fixed (csv_path : string) (delimiter : string)
  : result (CsvHeaders * Csv) :=
  csv_rows <- read_rows csv_path delimiter ;;
  match csv_rows with
  | [] => Err ValueError
  | header_row :: csv_rows' =>
      h <- get_csv_headers_fixed header_row ;;
      Ok (h, csv_rows')
  end.

End ReadCsv.

(* ------------------------------------------------------------------ *)
(** ** Python's [+] on the operands the entry points use

    A list of strings, or an enum class such as [CELL_TYPES]: iterable (so
    [list(...)] and [for] accept it), but not a list. *)

Inductive py_seq : Type :=
| PyList (l : list string)
| PyEnumType (members : list string).

(** [list(x)] *)
Definition py_list (x : py_seq) : list string :=
  match x with
  | PyList l => l
  | PyEnumType members => members
  end.

(** [a + b]: [list.__add__] takes only a list, and an enum class defines no
    [__radd__], so any other combination raises [TypeError]. *)
Definition py_add (a b : py_seq) : result (list string) :=
  match a, b with
  | PyList l1, PyList l2 => Ok (l1 ++ l2)%list
  | _, _ => Err TypeError
  end.

(** The enum class [CELL_TYPES] as a Python object. *)
Definition CELL_TYPES_class : py_seq := PyEnumType (map cell_type_value CELL_TYPES).

(** Truthiness of an optional path argument: [None] and [""] are falsy. *)
Definition truthy_path (o : option string) : bool :=
  match o with
  | Some s => negb (String.eqb s "")
  | None => false
  end.

(* ------------------------------------------------------------------ *)
(** ** Entry points

    The effects of a run are recorded as a list of events: CSV writes
    (write_csv, to a path or to stdout for [None]), directory creation,
    saved figures and the final [pyplot.show()].  Messages printed to
    stdout or stderr are not recorded.  Argument parsing and the file
    system are parameters. *)

Inductive io_event (Fig : Type) : Type :=
| EvWriteCsv (output_file : option string) (output_csv : Csv) (delimiter : string)
| EvMakedirs (dir : string)
| EvSaveFig (path : string) (fig : Fig)
| EvShow.
Arguments EvWriteCsv {Fig} output_file output_csv delimiter.
Arguments EvMakedirs {Fig} dir.
Arguments EvSaveFig {Fig} path fig.
Arguments EvShow {Fig}.

(** The parsed command line of the two converters. *)
Record converter_args : Type := {
  ca_csv_file : string;
  ca_output : option string;
  ca_delimiter : string
}.

Section ConverterMain.
Variable Fig : Type.
Variable parse_args : list string -> result converter_args.
Variable read_rows : string -> string -> result Csv.

(** relative_cell_counter.main *)
Definition counter_main (args : list string) : result (list (io_event Fig) * Z) :=
  arg_values <- parse_args args ;;
  required_headers <- py_add (PyList [SAMPLE_HEADER]) CELL_TYPES_class ;;
  hc <- read_csv read_rows (ca_csv_file arg_values) required_headers (ca_delimiter arg_values) ;;
  let '(csv_headers, csv_rows) := hc in
  output_csv <- convert_cell_count csv_headers csv_rows ;;
  Ok ([EvWriteCsv (ca_output arg_values) output_csv (ca_delimiter arg_values)], 0%Z).

(** relative_cell_counts.main *)
Definition counts_main (args : list string) : result (list (io_event Fig) * Z) :=
  arg_values <- parse_args args ;;
  hc <- read_csv_fixed read_rows (ca_csv_file arg_values) (ca_delimiter arg_values) ;;
  let '(csv_headers, csv_rows) := hc in
  output_csv <- convert_cell_count csv_headers csv_rows ;;
  Ok ([EvWriteCsv (ca_output arg_values) output_csv (ca_delimiter arg_values)], 0%Z).

End ConverterMain.

Section Boxplots.
Variable Fig : Type.
(** generate_boxplot: the matplotlib figure built from a label and the two
    lists of percentages. *)
Variable generate_boxplot : string -> list Q -> list Q -> Fig.

(** generate_boxplots *)
Definition generate_boxplots (treatment_headers : CsvHeaders) (treatment_csv : Csv)
    (relative_headers : CsvHeaders) (relative_csv : Csv) : result (dict Fig) :=
  rn <- calculate_responders treatment_headers treatment_csv relative_headers relative_csv ;;
  let '(responders, nonresponders) := rn in
  foldM (fun boxplots cell_type =>
           lr <- dict_index responders (cell_type_value cell_type) ;;
           ln <- dict_index nonresponders (cell_type_value cell_type) ;;
           Ok (dict_set boxplots (cell_type_value cell_type)
                 (generate_boxplot (cell_type_value cell_type) lr ln)))
        [] CELL_TYPES.

(** The parsed command line of the analyzer (after its boxplot-directory
    check). *)
Record analyzer_args : Type := {
  aa_treatment_csv : string;
  aa_relative_csv : option string;
  aa_boxplot_dir : option string;
  aa_delimiter : string
}.

Variable parse_args : list string -> result analyzer_args.
Variable read_rows : string -> string -> result Csv.
Variables path_isfile path_exists : string -> bool.
(** [os.path.join(boxplot_dir, f"{cell_type}.png")] *)
Variable png_path : string -> string -> string.

(** The relative-count table used by the analyzer: generated from the
    treatment table (and possibly saved), or read from the given file. *)
Definition analyzer_relative (arg_values : analyzer_args) (treatment_headers : CsvHeaders)
    (treatment_csv : Csv) : result (CsvHeaders * Csv * list (io_event Fig)) :=
  let rel := aa_relative_csv arg_values in
  let rel_path := match rel with Some p => p | None => "" end in
  if negb (truthy_path rel) || negb (path_isfile rel_path) then
    relative_csv0 <- convert_cell_count treatment_headers treatment_csv ;;
    match relative_csv0 with
    | [] => Err IndexError
    | header_row :: relative_csv =>
        relative_headers <- get_csv_headers header_row OUTPUT_HEADERS ;;
        let evs :=
          if truthy_path rel then
            if negb (path_exists rel_path)
            then [EvWriteCsv (Some rel_path) (OUTPUT_HEADERS :: relative_csv)
                             (aa_delimiter arg_values)]
            else []
          else [] in
        Ok (relative_headers, relative_csv, evs)
    end
  else
    hc <- read_csv read_rows rel_path OUTPUT_HEADERS (aa_delimiter arg_values) ;;
    let '(relative_headers, relative_csv) := hc in
    Ok (relative_headers, relative_csv, []).

(** cell_treatment_analyzer.main *)
Definition analyzer_main (args : list string) : result (list (io_event Fig) * Z) :=
  arg_values <- parse_args args ;;
  required_headers <- py_add (PyList [SAMPLE_HEADER; TREATMENT_HEADER; SAMPLE_TYPE_HEADER;
                                      RESPONSE_HEADER])
                             (PyList (py_list CELL_TYPES_class)) ;;
  ht <- read_csv read_rows (aa_treatment_csv arg_values) required_headers
                 (aa_delimiter arg_values) ;;
  let '(treatment_headers, treatment_csv) := ht in
  rr <- analyzer_relative arg_values treatment_headers treatment_csv ;;
  let '(relative_headers, relative_csv, evs) := rr in
  boxplots <- generate_boxplots treatment_headers treatment_csv relative_headers relative_csv ;;
  let plot_evs :=
    match aa_boxplot_dir arg_values with
    | Some dir =>
        if truthy_path (Some dir) then
          EvMakedirs dir
            :: map (fun kv => EvSaveFig (png_path dir (fst kv)) (snd kv)) boxplots
        else [EvShow]
    | None => [EvShow]
    end in
  Ok ((evs ++ plot_evs)%list, 0%Z).

End Boxplots.

(* ================================================================== *)
(** * Proofs *)

(** ** Dicts and list search *)

Lemma dict_get_set {V} (d : dict V) k k' v :
  dict_get (dict_set d k v) k' = if String.eqb k' k then Some v else dict_get d k'.
Proof.
  induction d as [|[k0 v0] d IH]; simpl.
  - reflexivity.
  - destruct (String.eqb k k0) eqn:E; simpl.
    + apply String.eqb_eq in E; subst k0.
      destruct (String.eqb k' k); reflexivity.
    + rewrite IH. destruct (String.eqb k' k) eqn:E1; [|reflexivity].
      apply String.eqb_eq in E1; subst k'. rewrite E. reflexivity.
Qed.

Lemma py_in_iff x l : py_in x l = true <-> In x l.
Proof.
  unfold py_in. rewrite existsb_exists. split.
  - intros [y [Hy E]]. apply String.eqb_eq in E. subst. exact Hy.
  - intros H. exists x. split; [exact H | apply String.eqb_refl].
Qed.

Lemma py_index_some l x i :
  py_index l x = Some i ->
  nth_error l i = Some x /\ (forall j, j < i -> nth_error l j <> Some x).
Proof.
  revert i. induction l as [|y l IH]; simpl; intros i H; [discriminate|].
  destruct (String.eqb x y) eqn:E.
  - injection H as <-. apply String.eqb_eq in E. subst.
    split; [reflexivity | intros j Hj; lia].
  - destruct (py_index l x) as [i'|] eqn:Ei; [|discriminate].
    injection H as <-. destruct (IH i' eq_refl) as [H1 H2].
    split; [exact H1|].
    intros [|j] Hj; simpl.
    + intros Hy. injection Hy as ->. rewrite String.eqb_refl in E. discriminate.
    + apply H2. lia.
Qed.

Lemma py_index_none l x : py_index l x = None <-> ~ In x l.
Proof.
  induction l as [|y l IH]; simpl.
  - tauto.
  - destruct (String.eqb x y) eqn:E.
    + apply String.eqb_eq in E. subst. split; [discriminate | tauto].
    + apply String.eqb_neq in E.
      destruct (py_index l x); split; intros H.
      * discriminate.
      * exfalso. assert (Hc : Some n = None) by (apply IH; tauto). discriminate.
      * intros [H1|H1]; [congruence|]. apply IH; assumption.
      * reflexivity.
Qed.

Lemma py_index_in l x : In x l -> exists i, py_index l x = Some i.
Proof.
  intros H. destruct (py_index l x) as [i|] eqn:E; [eauto|].
  apply py_index_none in E. contradiction.
Qed.

(** The assignment loop of [get_csv_headers]. *)
Lemma headers_loop_ok (header_row : Row) (req : list string) (acc : CsvHeaders) :
  (forall h, In h req -> In h header_row) ->
  exists m,
    foldM (fun csv_headers header =>
             match py_index header_row header with
             | Some i => Ok (dict_set csv_headers header i)
             | None => Err ValueError
             end) acc req = Ok m
    /\ forall h, dict_get m h = if py_in h req then py_index header_row h else dict_get acc h.
Proof.
  revert acc. induction req as [|r req IH]; intros acc Hin; simpl.
  - exists acc. split; reflexivity.
  - destruct (py_index_in header_row r (Hin r (or_introl eq_refl))) as [i Hi].
    rewrite Hi. simpl.
    destruct (IH (dict_set acc r i)) as [m [Hm Hget]].
    { intros h Hh. apply Hin. right. exact Hh. }
    exists m. split; [exact Hm|]. intros h. rewrite Hget, dict_get_set.
    unfold py_in. simpl.
    destruct (String.eqb h r) eqn:E; simpl.
    + apply String.eqb_eq in E. subst h.
      destruct (existsb (String.eqb r) req); congruence.
    + destruct (existsb (String.eqb h) req); reflexivity.
Qed.

Lemma get_csv_headers_ok (header_row : Row) (req : list string) :
  (forall h, In h req -> In h header_row) ->
  exists m, get_csv_headers header_row req = Ok m
    /\ forall h, dict_get m h = if py_in h req then py_index header_row h else None.
Proof.
  intros Hin. unfold get_csv_headers.
  replace (forallb (fun header => py_in header header_row) req) with true.
  2:{ symmetry. apply forallb_forall. intros h Hh. apply py_in_iff. auto. }
  simpl. apply (headers_loop_ok header_row req [] Hin).
Qed.

Lemma get_csv_headers_missing (header_row : Row) (req : list string) :
  (exists h, In h req /\ ~ In h header_row) ->
  get_csv_headers header_row req = Err ValueError.
Proof.
  intros [h [Hh Hn]]. unfold get_csv_headers.
  replace (forallb (fun header => py_in header header_row) req) with false; [reflexivity|].
  symmetry. apply Bool.not_true_iff_false. intros Hall.
  rewrite forallb_forall in Hall. apply Hn, py_in_iff, Hall, Hh.
Qed.

Lemma forallb_false_exists {A} (f : A -> bool) (l : list A) :
  forallb f l = false -> exists x, In x l /\ f x = false.
Proof.
  induction l as [|a l IH]; simpl; [discriminate|].
  destruct (f a) eqn:E; simpl; intros H.
  - destruct (IH H) as [x [Hx Hf]]. exists x. auto.
  - exists a. auto.
Qed.

Lemma get_csv_headers_err_iff (header_row : Row) (req : list string) :
  get_csv_headers header_row req = Err ValueError <-> exists h, In h req /\ ~ In h header_row.
Proof.
  split; [|apply get_csv_headers_missing].
  intros Herr.
  destruct (forallb (fun h => py_in h header_row) req) eqn:E.
  - exfalso. rewrite forallb_forall in E.
    destruct (get_csv_headers_ok header_row req) as [m [Hm _]].
    + intros h Hh. apply py_in_iff. auto.
    + congruence.
  - destruct (forallb_false_exists _ _ E) as [h [Hh Hf]].
    exists h. split; [exact Hh|]. intros Hin. apply py_in_iff in Hin. congruence.
Qed.

(** ** Header resolver *)

(** C6: [get_csv_headers] raises [ValueError] exactly when some required name
    is absent from the header row (names compared as exact, case-sensitive
    strings); otherwise it returns a mapping whose keys are the required
    names, each mapped to a zero-based position holding that name in the
    header row (its first occurrence).  Extra columns and the column order
    only matter through those positions. *)
Theorem get_csv_headers_contract (header_row : Row) (req : list string) :
  (get_csv_headers header_row req = Err ValueError
     <-> exists h, In h req /\ ~ In h header_row)
  /\ ((forall h, In h req -> In h header_row) ->
      exists m, get_csv_headers header_row req = Ok m
        /\ (forall h, In h req ->
              exists i, dict_get m h = Some i /\ nth_error header_row i = Some h
                        /\ forall j, j < i -> nth_error header_row j <> Some h)
        /\ (forall h i, dict_get m h = Some i -> In h req)).
Proof.
  split; [apply get_csv_headers_err_iff|].
  intros Hin. destruct (get_csv_headers_ok header_row req Hin) as [m [Hm Hget]].
  exists m. split; [exact Hm|]. split.
  - intros h Hh. rewrite Hget.
    replace (py_in h req) with true by (symmetry; apply py_in_iff; exact Hh).
    destruct (py_index_in header_row h (Hin h Hh)) as [i Hi]. rewrite Hi.
    exists i. split; [reflexivity|]. apply py_index_some. exact Hi.
  - intros h i Hi. rewrite Hget in Hi.
    destruct (py_in h req) eqn:E; [apply py_in_iff; exact E | discriminate].
Qed.

Lemma get_csv_headers_contract_witness :
  get_csv_headers ["Sample"; "b_cell"] ["sample"] = Err ValueError
  /\ exists m, get_csv_headers ["extra"; "b_cell"; "sample"] ["sample"; "b_cell"] = Ok m.
Proof.
  split.
  - apply (proj2 (proj1 (get_csv_headers_contract ["Sample"; "b_cell"] ["sample"]))).
    exists "sample". split; [simpl; left; reflexivity|].
    simpl. intros [H|[H|H]]; [discriminate | discriminate | exact H].
  - destruct (proj2 (get_csv_headers_contract ["extra"; "b_cell"; "sample"] ["sample"; "b_cell"]))
      as [m [Hm _]].
    + intros h [<-|[<-|[]]]; simpl; auto.
    + exists m. exact Hm.
Defined.

(** C9 (counterexample): a header row repeating a required name is still
    rejected when another required name is missing. *)
Lemma get_csv_headers_duplicate_cex :
  get_csv_headers ["sample"; "sample"] ["sample"; "b_cell"] = Err ValueError.
Proof. reflexivity. Qed.

(** C9: for a header row that contains every required name and in which a
    required name occurs more than once, [get_csv_headers] succeeds and maps
    that name to its first (leftmost) position. *)
Theorem get_csv_headers_duplicate_leftmost (header_row : Row) (req : list string)
    (h : string) (i j : nat) :
  (forall x, In x req -> In x header_row) ->
  In h req ->
  i < j -> nth_error header_row i = Some h -> nth_error header_row j = Some h ->
  exists m k, get_csv_headers header_row req = Ok m
    /\ dict_get m h = Some k /\ nth_error header_row k = Some h
    /\ k <= i /\ (forall j', j' < k -> nth_error header_row j' <> Some h).
Proof.
  intros Hall Hh Hij Hi Hj.
  destruct (get_csv_headers_ok header_row req Hall) as [m [Hm Hget]].
  destruct (py_index_in header_row h (Hall h Hh)) as [k Hk].
  destruct (py_index_some _ _ _ Hk) as [Hk1 Hk2].
  exists m, k. split; [exact Hm|].
  rewrite Hget. replace (py_in h req) with true by (symmetry; apply py_in_iff; exact Hh).
  split; [exact Hk|]. split; [exact Hk1|]. split; [|exact Hk2].
  destruct (Nat.lt_ge_cases i k) as [Hlt|Hge]; [|exact Hge].
  exfalso. exact (Hk2 i Hlt Hi).
Qed.

Lemma get_csv_headers_duplicate_leftmost_witness :
  exists m k, get_csv_headers ["b_cell"; "sample"; "sample"] ["sample"; "b_cell"] = Ok m
    /\ dict_get m "sample" = Some k /\ nth_error ["b_cell"; "sample"; "sample"] k = Some "sample"
    /\ k <= 1 /\ (forall j', j' < k -> nth_error ["b_cell"; "sample"; "sample"] j' <> Some "sample").
Proof.
  apply (get_csv_headers_duplicate_leftmost ["b_cell"; "sample"; "sample"] ["sample"; "b_cell"]
           "sample" 1 2).
  - intros x [<-|[<-|[]]]; simpl; auto.
  - simpl; auto.
  - lia.
  - reflexivity.
  - reflexivity.
Defined.

(** ** Generic loop facts *)

Lemma foldM_app_err {A B} (f : A -> B -> result A) (a : A) (l1 : list B) (b : B) (l2 : list B) :
  (forall a', exists e, f a' b = Err e) ->
  exists e, foldM f a (l1 ++ b :: l2)%list = Err e.
Proof.
  intros Hb. revert a. induction l1 as [|x l1 IH]; intros a; simpl.
  - destruct (Hb a) as [e He]. rewrite He. exists e. reflexivity.
  - destruct (f a x) as [a'|e]; simpl; [apply IH | exists e; reflexivity].
Qed.

(** ** Relative-count converter *)

Lemma count_cells_ok (hdrs : CsvHeaders) (row : Row) (s1 s2 s3 s4 s5 : string)
    (n1 n2 n3 n4 n5 : Z) :
  field hdrs row (cell_type_value B_CELL) = Ok s1 -> parse_int s1 = Some n1 ->
  field hdrs row (cell_type_value CD8_T_CELL) = Ok s2 -> parse_int s2 = Some n2 ->
  field hdrs row (cell_type_value CD4_T_CELL) = Ok s3 -> parse_int s3 = Some n3 ->
  field hdrs row (cell_type_value NK_CELL) = Ok s4 -> parse_int s4 = Some n4 ->
  field hdrs row (cell_type_value MONOCYTE) = Ok s5 -> parse_int s5 = Some n5 ->
  count_cells hdrs row =
    Ok ((((0 + n1) + n2) + n3) + n4 + n5,
        [(cell_type_value B_CELL, n1); (cell_type_value CD8_T_CELL, n2);
         (cell_type_value CD4_T_CELL, n3); (cell_type_value NK_CELL, n4);
         (cell_type_value MONOCYTE, n5)])%Z.
Proof.
  intros F1 P1 F2 P2 F3 P3 F4 P4 F5 P5.
  unfold count_cells, CELL_TYPES. cbn [foldM].
  rewrite F1; cbn [bind]; unfold py_int at 1; rewrite P1; cbn [bind].
  rewrite F2; cbn [bind]; unfold py_int at 1; rewrite P2; cbn [bind].
  rewrite F3; cbn [bind]; unfold py_int at 1; rewrite P3; cbn [bind].
  rewrite F4; cbn [bind]; unfold py_int at 1; rewrite P4; cbn [bind].
  rewrite F5; cbn [bind]; unfold py_int at 1; rewrite P5; cbn [bind].
  reflexivity.
Qed.

(** C3: when all five cell-type fields parse as 0, converting the sample
    raises [ZeroDivisionError], and converting any table containing that
    row raises an exception instead of producing output. *)
Theorem convert_sample_all_zero (hdrs : CsvHeaders) (row : Row) (sid : string) :
  (forall c, exists s, field hdrs row (cell_type_value c) = Ok s /\ parse_int s = Some 0%Z) ->
  field hdrs row SAMPLE_HEADER = Ok sid ->
  convert_sample_cell_count hdrs row = Err ZeroDivisionError
  /\ forall rows1 rows2, exists e, convert_cell_count hdrs (rows1 ++ row :: rows2)%list = Err e.
Proof.
  intros Hz Hs.
  assert (Hrow : convert_sample_cell_count hdrs row = Err ZeroDivisionError).
  { destruct (Hz B_CELL) as [s1 [F1 P1]]. destruct (Hz CD8_T_CELL) as [s2 [F2 P2]].
    destruct (Hz CD4_T_CELL) as [s3 [F3 P3]]. destruct (Hz NK_CELL) as [s4 [F4 P4]].
    destruct (Hz MONOCYTE) as [s5 [F5 P5]].
    unfold convert_sample_cell_count.
    rewrite (count_cells_ok hdrs row s1 s2 s3 s4 s5 0 0 0 0 0 F1 P1 F2 P2 F3 P3 F4 P4 F5 P5).
    cbn [bind]. rewrite Hs. reflexivity. }
  split; [exact Hrow|].
  intros rows1 rows2. unfold convert_cell_count. apply foldM_app_err.
  intros a. exists ZeroDivisionError. rewrite Hrow. reflexivity.
Qed.

Lemma convert_sample_all_zero_witness :
  convert_sample_cell_count [("sample", 0); ("b_cell", 1); ("cd8_t_cell", 2);
                             ("cd4_t_cell", 3); ("nk_cell", 4); ("monocyte", 5)]
                            ["S0"; "0"; "0"; "0"; "0"; "0"] = Err ZeroDivisionError.
Proof.
  apply (convert_sample_all_zero _ _ "S0").
  - intros c; exists "0"; destruct c; split; reflexivity.
  - reflexivity.
Defined.

Definition sample_and_population (r : Row) : string * string := (nth 0 r "", nth 2 r "").

Lemma get_output_csv_row_fields sample total population count r :
  get_output_csv_row sample total population count = Ok r ->
  sample_and_population r = (sample, population).
Proof.
  unfold get_output_csv_row. destruct (py_true_div count total); [|discriminate].
  intros H. injection H as <-. reflexivity.
Qed.

Lemma output_rows_loop (sample : string) (total : Z) (cell_counts : dict Z) :
  forall cts acc out,
  foldM (fun output_rows cell_type =>
           n <- dict_index cell_counts (cell_type_value cell_type) ;;
           r <- get_output_csv_row sample total (cell_type_value cell_type) n ;;
           Ok (output_rows ++ [r])%list) acc cts = Ok out ->
  exists rs, out = (acc ++ rs)%list
    /\ map sample_and_population rs = map (fun c => (sample, cell_type_value c)) cts.
Proof.
  induction cts as [|c cts IH]; intros acc out H; simpl in H.
  - injection H as <-. exists []. rewrite app_nil_r. split; reflexivity.
  - destruct (dict_index cell_counts (cell_type_value c)) as [n|e]; [|discriminate].
    cbn [bind] in H.
    destruct (get_output_csv_row sample total (cell_type_value c) n) as [r|e] eqn:Er;
      [|discriminate].
    cbn [bind] in H.
    destruct (IH _ _ H) as [rs [-> Hrs]].
    exists (r :: rs). rewrite <- app_assoc. split; [reflexivity|].
    simpl. rewrite (get_output_csv_row_fields _ _ _ _ _ Er), Hrs. reflexivity.
Qed.

Lemma convert_sample_cell_count_order (hdrs : CsvHeaders) (row : Row) (block : Csv) :
  convert_sample_cell_count hdrs row = Ok block ->
  exists sid, field hdrs row SAMPLE_HEADER = Ok sid
    /\ map sample_and_population block = map (fun c => (sid, cell_type_value c)) CELL_TYPES.
Proof.
  unfold convert_sample_cell_count.
  destruct (count_cells hdrs row) as [[total cell_counts]|e]; [|discriminate].
  cbn [bind]. destruct (field hdrs row SAMPLE_HEADER) as [sid|e]; [|discriminate].
  cbn [bind]. intros H. exists sid. split; [reflexivity|].
  destruct (output_rows_loop sid total cell_counts CELL_TYPES [] block H) as [rs [-> Hrs]].
  exact Hrs.
Qed.

Lemma convert_rows_loop (hdrs : CsvHeaders) :
  forall rows acc out,
  foldM (fun output_csv csv_row =>
           rows <- convert_sample_cell_count hdrs csv_row ;;
           Ok (output_csv ++ rows)%list) acc rows = Ok out ->
  exists blocks, out = (acc ++ List.concat blocks)%list
    /\ Forall2 (fun row block => convert_sample_cell_count hdrs row = Ok block) rows blocks.
Proof.
  induction rows as [|row rows IH]; intros acc out H; simpl in H.
  - injection H as <-. exists []. rewrite app_nil_r. split; [reflexivity | constructor].
  - destruct (convert_sample_cell_count hdrs row) as [block|e] eqn:Eb; [|discriminate].
    cbn [bind] in H. destruct (IH _ _ H) as [blocks [-> Hb]].
    exists (block :: blocks). rewrite <- app_assoc. split; [reflexivity|].
    constructor; assumption.
Qed.

(** C7: the output of [convert_cell_count] is the header row followed by one
    block per input row, in input order; each block lists the row's sample id
    with the five cell types in enumeration order.  For the row
    (S1, 10, 20, 30, 20, 20) the total is 100 and the records include
    (S1, 100, b_cell, 10, "10.00") and (S1, 100, cd4_t_cell, 30, "30.00"). *)
Theorem convert_cell_count_order (hdrs : CsvHeaders) (rows : Csv) (out : Csv) (row1 : Row) :
  (convert_cell_count hdrs rows = Ok out ->
   exists blocks, out = OUTPUT_HEADERS :: List.concat blocks
     /\ Forall2 (fun row block =>
                   exists sid, field hdrs row SAMPLE_HEADER = Ok sid
                     /\ map sample_and_population block
                        = map (fun c => (sid, cell_type_value c)) CELL_TYPES) rows blocks)
  /\ (field hdrs row1 SAMPLE_HEADER = Ok "S1" ->
      field hdrs row1 (cell_type_value B_CELL) = Ok "10" ->
      field hdrs row1 (cell_type_value CD8_T_CELL) = Ok "20" ->
      field hdrs row1 (cell_type_value CD4_T_CELL) = Ok "30" ->
      field hdrs row1 (cell_type_value NK_CELL) = Ok "20" ->
      field hdrs row1 (cell_type_value MONOCYTE) = Ok "20" ->
      exists out1, convert_cell_count hdrs [row1] = Ok out1
        /\ In ["S1"; "100"; cell_type_value B_CELL; "10"; "10.00"] out1
        /\ In ["S1"; "100"; cell_type_value CD4_T_CELL; "30"; "30.00"] out1).
Proof.
  split.
  - intros H. destruct (convert_rows_loop hdrs rows [OUTPUT_HEADERS] out H) as [blocks [-> Hb]].
    exists blocks. split; [reflexivity|].
    eapply Forall2_impl; [|exact Hb].
    intros row block Hrb. apply convert_sample_cell_count_order. exact Hrb.
  - intros Fs F1 F2 F3 F4 F5.
    eexists. split.
    + unfold convert_cell_count. cbn [foldM]. unfold convert_sample_cell_count.
      rewrite (count_cells_ok hdrs row1 "10" "20" "30" "20" "20" 10 20 30 20 20
                 F1 eq_refl F2 eq_refl F3 eq_refl F4 eq_refl F5 eq_refl).
      cbn [bind]. rewrite Fs. vm_compute. reflexivity.
    + simpl. split; [right; left; reflexivity | do 3 right; left; reflexivity].
Qed.

Lemma convert_cell_count_order_witness :
  exists out1, convert_cell_count [("b_cell", 0); ("cd8_t_cell", 1); ("cd4_t_cell", 2);
                                   ("nk_cell", 3); ("monocyte", 4); ("sample", 5)]
                                  [["10"; "20"; "30"; "20"; "20"; "S1"]] = Ok out1
    /\ In ["S1"; "100"; cell_type_value B_CELL; "10"; "10.00"] out1
    /\ In ["S1"; "100"; cell_type_value CD4_T_CELL; "30"; "30.00"] out1.
Proof.
  apply (proj2 (convert_cell_count_order
                  [("b_cell", 0); ("cd8_t_cell", 1); ("cd4_t_cell", 2);
                   ("nk_cell", 3); ("monocyte", 4); ("sample", 5)]
                  [] [] ["10"; "20"; "30"; "20"; "20"; "S1"]));
    reflexivity.
Defined.

(** ** Per-sample lookup *)

Definition relative_headers_std : CsvHeaders :=
  [("sample", 0); ("total_count", 1); ("population", 2); ("count", 3); ("percentage", 4)].

Lemma relative_headers_std_resolved :
  get_csv_headers OUTPUT_HEADERS OUTPUT_HEADERS = Ok relative_headers_std.
Proof. reflexivity. Qed.

(** C1 (evaluation at the failing input): a duplicate (sample, cell type)
    record is rejected when the first record's percentage is non-zero, but
    when it is 0.00 the [dict.get] truthiness test lets the second record
    silently overwrite the first. *)
Theorem get_sample_relative_zero_duplicate :
  get_sample_relative relative_headers_std
    [["S1"; "100"; "b_cell"; "5"; "5.00"]; ["S1"; "100"; "b_cell"; "10"; "10.00"]] "S1"
    = Err ValueError
  /\ exists v,
    get_sample_relative relative_headers_std
      [["S1"; "100"; "b_cell"; "0"; "0.00"]; ["S1"; "100"; "b_cell"; "10"; "10.00"]] "S1"
      = Ok [("b_cell", v)]
    /\ (v == 10)%Q.
Proof.
  split; [vm_compute; reflexivity|].
  eexists. split; [vm_compute; reflexivity | vm_compute; reflexivity].
Qed.

(** ** Rounding and decimal round trip *)


















(** The percentage field written for a count out of a total. *)
Definition percentage_str (count total : Z) : result string :=
  q <- py_true_div count total ;; Ok (format_float_2f (float_mul_pos q 100)).



(** Percentage fields as CPython writes them: [23 / 160] is the double just
    below [0.14375], so the field is ["14.37"]; [1 / 20000 * 100] is the
    double just above [0.005]; a zero count over a negative total is [-0.0];
    a quotient past the float range raises, a product past it is [inf]. *)
Lemma percentage_str_examples :
  percentage_str 23 160 = Ok "14.37"
  /\ percentage_str 1 20000 = Ok "0.01"
  /\ percentage_str 5000000000000 100000000000000001 = Ok "0.01"
  /\ percentage_str 0 (-5) = Ok "-0.00"
  /\ percentage_str (10 ^ 310) 1 = Err OverflowError
  /\ percentage_str (10 ^ 307) 1 = Ok "inf"
  /\ percentage_str 7 0 = Err ZeroDivisionError.
Proof. vm_compute. repeat split. Qed.






Definition sample_headers_std : CsvHeaders :=
  [("sample", 0); ("b_cell", 1); ("cd8_t_cell", 2); ("cd4_t_cell", 3);
   ("nk_cell", 4); ("monocyte", 5)].




(** ** Cohort aggregator *)

Lemma foldM_skip {A B} (f : A -> B -> result A) (a : A) (l1 : list B) (b : B) (l2 : list B) :
  (forall a', f a' b = Ok a') ->
  foldM f a (l1 ++ b :: l2)%list = foldM f a (l1 ++ l2)%list.
Proof.
  intros Hb. revert a. induction l1 as [|x l1 IH]; intros a; simpl.
  - rewrite Hb. reflexivity.
  - destruct (f a x); simpl; [apply IH | reflexivity].
Qed.

Lemma responders_step_skip (th rh : CsvHeaders) (rcsv : Csv) (row : Row) (t : string) :
  field th row TREATMENT_HEADER = Ok t ->
  (t <> TREATMENT \/ exists sty, field th row SAMPLE_TYPE_HEADER = Ok sty
                                 /\ ~ In sty INCLUDE_SAMPLE_TYPES) ->
  forall st, responders_step th rh rcsv st row = Ok st.
Proof.
  intros Ht Hq [r n]. unfold responders_step. rewrite Ht. cbn [bind].
  destruct (String.eqb t TREATMENT) eqn:E; [|reflexivity].
  apply String.eqb_eq in E. destruct Hq as [Hq|[sty [Hs Hn]]]; [contradiction|].
  rewrite Hs. cbn [bind].
  destruct (py_in sty INCLUDE_SAMPLE_TYPES) eqn:Ei; [|reflexivity].
  apply py_in_iff in Ei. contradiction.
Qed.

(** C5: a treatment row whose treatment is not [tr1], or whose sample type
    is not in [INCLUDE_SAMPLE_TYPES] (e.g. Tumor), leaves both cohort
    accumulators unchanged whatever its response; removing it from the
    treatment table does not change the result of [calculate_responders]. *)
Theorem calculate_responders_filtered_out (th rh : CsvHeaders) (rcsv : Csv) (row : Row)
    (l1 l2 : Csv) (t : string) :
  field th row TREATMENT_HEADER = Ok t ->
  (t <> TREATMENT \/ exists sty, field th row SAMPLE_TYPE_HEADER = Ok sty
                                 /\ ~ In sty INCLUDE_SAMPLE_TYPES) ->
  (forall st, responders_step th rh rcsv st row = Ok st)
  /\ calculate_responders th (l1 ++ row :: l2)%list rh rcsv
     = calculate_responders th (l1 ++ l2)%list rh rcsv.
Proof.
  intros Ht Hq.
  pose proof (responders_step_skip th rh rcsv row t Ht Hq) as Hs.
  split; [exact Hs|]. unfold calculate_responders. apply foldM_skip. exact Hs.
Qed.

Definition treatment_headers_std : CsvHeaders :=
  [("sample", 0); ("treatment", 1); ("sample_type", 2); ("response", 3);
   ("b_cell", 4); ("cd8_t_cell", 5); ("cd4_t_cell", 6); ("nk_cell", 7); ("monocyte", 8)].

Lemma calculate_responders_filtered_out_witness :
  calculate_responders treatment_headers_std
    [["S1"; "tr1"; "PBMC"; "y"; "10"; "20"; "30"; "20"; "20"];
     ["S2"; "tr1"; "Tumor"; "y"; "10"; "20"; "30"; "20"; "20"]]
    relative_headers_std [["S2"; "100"; "b_cell"; "10"; "10.00"]]
  = calculate_responders treatment_headers_std
      [["S1"; "tr1"; "PBMC"; "y"; "10"; "20"; "30"; "20"; "20"]]
      relative_headers_std [["S2"; "100"; "b_cell"; "10"; "10.00"]].
Proof.
  apply (calculate_responders_filtered_out treatment_headers_std relative_headers_std
           [["S2"; "100"; "b_cell"; "10"; "10.00"]]
           ["S2"; "tr1"; "Tumor"; "y"; "10"; "20"; "30"; "20"; "20"]
           [["S1"; "tr1"; "PBMC"; "y"; "10"; "20"; "30"; "20"; "20"]] [] "tr1").
  - reflexivity.
  - right. exists "Tumor". split; [reflexivity|]. simpl. intros [H|[]]. discriminate.
Defined.

Lemma append_all_nil (t : dict (list Q)) : append_all t [] = Ok t.
Proof. reflexivity. Qed.

(** C10: a sample id carried by no row of the relative-count table yields an
    empty mapping without error, and a qualifying treatment row with that
    sample id leaves both cohort accumulators unchanged. *)
Theorem get_sample_relative_absent (rh : CsvHeaders) (rcsv : Csv) (sid : string) :
  (forall r, In r rcsv -> exists s, field rh r SAMPLE_HEADER = Ok s /\ s <> sid) ->
  get_sample_relative rh rcsv sid = Ok []
  /\ forall th row sty resp st,
       field th row TREATMENT_HEADER = Ok TREATMENT ->
       field th row SAMPLE_TYPE_HEADER = Ok sty -> In sty INCLUDE_SAMPLE_TYPES ->
       field th row SAMPLE_HEADER = Ok sid ->
       field th row RESPONSE_HEADER = Ok resp ->
       responders_step th rh rcsv st row = Ok st.
Proof.
  intros Habs.
  assert (Hg : get_sample_relative rh rcsv sid = Ok []).
  { unfold get_sample_relative. generalize (@nil (string * Q)) as acc.
    induction rcsv as [|r rcsv IH]; intros acc; [reflexivity|].
    cbn [foldM]. destruct (Habs r (or_introl eq_refl)) as [s [Hs Hne]].
    unfold sample_relative_step at 1. rewrite Hs. cbn [bind].
    replace (String.eqb s sid) with false by (symmetry; apply String.eqb_neq; exact Hne).
    cbn [bind]. apply IH. intros r' Hr'. apply Habs. right. exact Hr'. }
  split; [exact Hg|].
  intros th row sty resp [r n] Ht Hs Hin Hsid Hresp.
  unfold responders_step. rewrite Ht. cbn [bind]. rewrite String.eqb_refl.
  rewrite Hs. cbn [bind].
  replace (py_in sty INCLUDE_SAMPLE_TYPES) with true by (symmetry; apply py_in_iff; exact Hin).
  rewrite Hsid. cbn [bind]. rewrite Hg. cbn [bind]. rewrite Hresp. cbn [bind].
  destruct (String.eqb resp RESPONDING); reflexivity.
Qed.

Lemma get_sample_relative_absent_witness :
  get_sample_relative relative_headers_std [["S2"; "100"; "b_cell"; "10"; "10.00"]] "S1" = Ok [].
Proof.
  apply (get_sample_relative_absent relative_headers_std
           [["S2"; "100"; "b_cell"; "10"; "10.00"]] "S1").
  intros r [<-|[]]. exists "S2". split; [reflexivity | discriminate].
Defined.

Definition present (d : dict (list Q)) (k : string) : Prop := exists l, dict_get d k = Some l.

Definition entry_len (d : dict (list Q)) (k : string) : nat :=
  match dict_get d k with Some l => List.length l | None => 0 end.

Definition all_cell_entries (st : responders_state) : Prop :=
  forall c, present (fst st) (cell_type_value c) /\ present (snd st) (cell_type_value c).

Lemma append_all_present (rel : dict Q) :
  forall t t', append_all t rel = Ok t' -> forall k, present t k -> present t' k.
Proof.
  induction rel as [|[k0 v] rel IH]; intros t t' H k Hk; cbn [append_all foldM] in H.
  - injection H as <-. exact Hk.
  - unfold dict_index at 1 in H. destruct (dict_get t k0) as [l|] eqn:E; [|discriminate].
    cbn [bind] in H. apply (IH _ _ H). unfold present. rewrite dict_get_set.
    destruct (String.eqb k k0); [eauto | exact Hk].
Qed.

Lemma append_all_spec (rel : dict Q) :
  forall t, (forall k, In k (map fst rel) -> present t k) ->
  exists t', append_all t rel = Ok t'
    /\ forall k, entry_len t' k = entry_len t k + count_occ string_dec (map fst rel) k.
Proof.
  induction rel as [|[k0 v] rel IH]; intros t Hp; cbn [append_all foldM].
  - exists t. split; [reflexivity|]. intros k. simpl. lia.
  - destruct (Hp k0 (or_introl eq_refl)) as [l Hl].
    unfold dict_index at 1. rewrite Hl. cbn [bind].
    destruct (IH (dict_set t k0 (l ++ [v])%list)) as [t' [Ht' Hlen]].
    { intros k Hk. destruct (Hp k (or_intror Hk)) as [l' Hl'].
      unfold present. rewrite dict_get_set. destruct (String.eqb k k0); eauto. }
    exists t'. split; [exact Ht'|]. intros k. rewrite Hlen.
    unfold entry_len at 1. rewrite dict_get_set. cbn [map fst count_occ].
    destruct (String.eqb k k0) eqn:E.
    + apply String.eqb_eq in E. subst k.
      destruct (string_dec k0 k0) as [_|C]; [|contradiction].
      unfold entry_len. rewrite Hl, length_app. simpl. lia.
    + apply String.eqb_neq in E.
      destruct (string_dec k0 k) as [C|_]; [congruence|]. unfold entry_len. lia.
Qed.

Lemma responders_step_cases (th rh : CsvHeaders) (rcsv : Csv) (st st' : responders_state)
    (row : Row) :
  responders_step th rh rcsv st row = Ok st' ->
  st' = st
  \/ exists rel t', (append_all (fst st) rel = Ok t' /\ st' = (t', snd st))
                 \/ (append_all (snd st) rel = Ok t' /\ st' = (fst st, t')).
Proof.
  destruct st as [r n]. unfold responders_step.
  destruct (field th row TREATMENT_HEADER) as [t|e]; cbn [bind]; [|discriminate].
  destruct (String.eqb t TREATMENT); [|intros H; injection H as <-; left; reflexivity].
  destruct (field th row SAMPLE_TYPE_HEADER) as [sty|e]; cbn [bind]; [|discriminate].
  destruct (py_in sty INCLUDE_SAMPLE_TYPES); [|intros H; injection H as <-; left; reflexivity].
  destruct (field th row SAMPLE_HEADER) as [sid|e]; cbn [bind]; [|discriminate].
  destruct (get_sample_relative rh rcsv sid) as [rel|e]; cbn [bind]; [|discriminate].
  destruct (field th row RESPONSE_HEADER) as [resp|e]; cbn [bind]; [|discriminate].
  destruct (String.eqb resp RESPONDING).
  - destruct (append_all r rel) as [r'|e] eqn:E; cbn [bind]; [|discriminate].
    intros H; injection H as <-. right. exists rel, r'. left. split; [exact E | reflexivity].
  - destruct (append_all n rel) as [n'|e] eqn:E; cbn [bind]; [|discriminate].
    intros H; injection H as <-. right. exists rel, n'. right. split; [exact E | reflexivity].
Qed.

Lemma init_all_cell_entries : all_cell_entries init_state.
Proof. intros c; destruct c; split; eexists; reflexivity. Qed.

Lemma responders_step_entries (th rh : CsvHeaders) (rcsv : Csv) (st st' : responders_state)
    (row : Row) :
  all_cell_entries st -> responders_step th rh rcsv st row = Ok st' -> all_cell_entries st'.
Proof.
  intros Hinv H. destruct (responders_step_cases _ _ _ _ _ _ H)
    as [->|[rel [t' [[Ha ->]|[Ha ->]]]]]; [exact Hinv| |];
    intros c; destruct (Hinv c) as [H1 H2]; simpl.
  - split; [exact (append_all_present _ _ _ Ha _ H1) | exact H2].
  - split; [exact H1 | exact (append_all_present _ _ _ Ha _ H2)].
Qed.

Lemma foldM_responders_entries (th rh : CsvHeaders) (rcsv : Csv) :
  forall pre st st', all_cell_entries st ->
  foldM (responders_step th rh rcsv) st pre = Ok st' -> all_cell_entries st'.
Proof.
  induction pre as [|row pre IH]; intros st st' Hinv H; cbn [foldM] in H.
  - injection H as <-. exact Hinv.
  - destruct (responders_step th rh rcsv st row) as [st1|e] eqn:E; [|discriminate].
    cbn [bind] in H. exact (IH _ _ (responders_step_entries _ _ _ _ _ _ Hinv E) H).
Qed.

(** C8: both accumulators have an entry (possibly an empty list) for each of
    the five cell types after every iteration of the loop over the
    treatment rows, hence in the mappings [calculate_responders] returns. *)
Theorem calculate_responders_entries (th rh : CsvHeaders) (rcsv : Csv) :
  (forall pre st, foldM (responders_step th rh rcsv) init_state pre = Ok st ->
                  all_cell_entries st)
  /\ (forall tcsv r n, calculate_responders th tcsv rh rcsv = Ok (r, n) ->
        forall c, (exists lr, dict_get r (cell_type_value c) = Some lr)
                  /\ (exists ln, dict_get n (cell_type_value c) = Some ln)).
Proof.
  assert (Hpre : forall pre st, foldM (responders_step th rh rcsv) init_state pre = Ok st ->
                                all_cell_entries st).
  { intros pre st H. exact (foldM_responders_entries _ _ _ pre _ _ init_all_cell_entries H). }
  split; [exact Hpre|].
  intros tcsv r n H c. exact (Hpre tcsv (r, n) H c).
Qed.

Lemma calculate_responders_entries_witness :
  calculate_responders treatment_headers_std
    [["S3"; "tr1"; "Tumor"; "n"; "1"; "1"; "1"; "1"; "3"]] relative_headers_std []
  = Ok (init_counter, init_counter)
  /\ (exists lr, dict_get init_counter (cell_type_value MONOCYTE) = Some lr)
  /\ (exists ln, dict_get init_counter (cell_type_value MONOCYTE) = Some ln).
Proof.
  assert (H : calculate_responders treatment_headers_std
                [["S3"; "tr1"; "Tumor"; "n"; "1"; "1"; "1"; "1"; "3"]] relative_headers_std []
              = Ok (init_counter, init_counter)) by reflexivity.
  split; [exact H|].
  exact (proj2 (calculate_responders_entries treatment_headers_std relative_headers_std [])
           _ _ _ H MONOCYTE).
Defined.

(** The treatment/sample-type filter of [calculate_responders], as a test. *)
Definition qualifies (th : CsvHeaders) (row : Row) : bool :=
  match field th row TREATMENT_HEADER with
  | Ok t =>
      String.eqb t TREATMENT
      && match field th row SAMPLE_TYPE_HEADER with
         | Ok sty => py_in sty INCLUDE_SAMPLE_TYPES
         | Err _ => false
         end
  | Err _ => false
  end.

(** The populations of the relative-count records of a sample, in table order. *)
Definition populations_of (rh : CsvHeaders) (rcsv : Csv) (sid : string) : list string :=
  flat_map (fun r => match field rh r SAMPLE_HEADER, field rh r POPULATION_HEADER with
                     | Ok s, Ok ct => if String.eqb s sid then [ct] else []
                     | _, _ => []
                     end) rcsv.

(** A treatment row carrying the four columns the aggregator reads. *)
Definition wf_treatment_row (th : CsvHeaders) (row : Row) : Prop :=
  forall k, In k [TREATMENT_HEADER; SAMPLE_TYPE_HEADER; SAMPLE_HEADER; RESPONSE_HEADER] ->
  exists v, field th row k = Ok v.

(** A relative-count record with a sample, a population and a percentage
    that parses as a number. *)
Definition wf_relative_row (rh : CsvHeaders) (r : Row) : Prop :=
  exists s ct p q, field rh r SAMPLE_HEADER = Ok s /\ field rh r POPULATION_HEADER = Ok ct
                   /\ field rh r PERCENTAGE_HEADER = Ok p /\ parse_float p = Some q.

Lemma dict_get_notin {V} (d : dict V) k : ~ In k (map fst d) -> dict_get d k = None.
Proof.
  induction d as [|[k' v] d IH]; simpl; intros H; [reflexivity|].
  destruct (String.eqb k k') eqn:E.
  - apply String.eqb_eq in E. subst. exfalso. apply H. left. reflexivity.
  - apply IH. intros Hk. apply H. right. exact Hk.
Qed.

Lemma dict_set_keys_new {V} (d : dict V) k v :
  ~ In k (map fst d) -> map fst (dict_set d k v) = (map fst d ++ [k])%list.
Proof.
  induction d as [|[k' v'] d IH]; simpl; intros H; [reflexivity|].
  destruct (String.eqb k k') eqn:E.
  - apply String.eqb_eq in E. subst. exfalso. apply H. left. reflexivity.
  - simpl. rewrite IH; [reflexivity|]. intros Hk. apply H. right. exact Hk.
Qed.

Lemma sample_relative_loop (rh : CsvHeaders) (sid : string) :
  forall rcsv acc,
  (forall r, In r rcsv -> wf_relative_row rh r) ->
  NoDup (map fst acc ++ populations_of rh rcsv sid) ->
  exists acc', foldM (sample_relative_step rh sid) acc rcsv = Ok acc'
    /\ map fst acc' = (map fst acc ++ populations_of rh rcsv sid)%list.
Proof.
  induction rcsv as [|r rcsv IH]; intros acc Hwf Hnd; cbn [foldM].
  - exists acc. split; [reflexivity|]. simpl. rewrite app_nil_r. reflexivity.
  - destruct (Hwf r (or_introl eq_refl)) as [s [ct [p [q [Hs [Hc [Hp Hq]]]]]]].
    assert (Hwf' : forall r', In r' rcsv -> wf_relative_row rh r')
      by (intros r' Hr'; apply Hwf; right; exact Hr').
    assert (Hpop : populations_of rh (r :: rcsv) sid
                   = ((if String.eqb s sid then [ct] else []) ++ populations_of rh rcsv sid)%list)
      by (unfold populations_of; simpl; rewrite Hs, Hc; reflexivity).
    rewrite Hpop in Hnd |- *.
    unfold sample_relative_step at 1. rewrite Hs. cbn [bind].
    destruct (String.eqb s sid).
    + rewrite Hc. cbn [bind]. simpl app in Hnd.
      assert (Hnin : ~ In ct (map fst acc))
        by (intros Hin; apply (NoDup_remove_2 _ _ _ Hnd), in_or_app; left; exact Hin).
      rewrite (dict_get_notin _ _ Hnin). cbn [truthy_opt].
      rewrite Hp. cbn [bind]. unfold py_float. rewrite Hq. cbn [bind].
      destruct (IH (dict_set acc ct q) Hwf') as [acc' [Ha Hk]].
      { rewrite dict_set_keys_new by exact Hnin. rewrite <- app_assoc. exact Hnd. }
      exists acc'. split; [exact Ha|]. rewrite Hk, dict_set_keys_new by exact Hnin.
      rewrite <- app_assoc. reflexivity.
    + cbn [bind]. apply IH; assumption.
Qed.

Lemma cell_type_values_nodup : NoDup (map cell_type_value CELL_TYPES).
Proof.
  apply (NoDup_count_occ' string_dec). intros x Hx.
  simpl in Hx. repeat destruct Hx as [<-|Hx]; try reflexivity. destruct Hx.
Qed.

Lemma cell_type_value_count (c : cell_type) :
  count_occ string_dec (map cell_type_value CELL_TYPES) (cell_type_value c) = 1.
Proof. destruct c; reflexivity. Qed.

Lemma responders_step_counts (th rh : CsvHeaders) (rcsv : Csv) (st : responders_state)
    (row : Row) :
  all_cell_entries st -> wf_treatment_row th row ->
  (forall r, In r rcsv -> wf_relative_row rh r) ->
  (forall sid, field th row SAMPLE_HEADER = Ok sid ->
     Permutation (populations_of rh rcsv sid) (map cell_type_value CELL_TYPES)) ->
  exists st', responders_step th rh rcsv st row = Ok st'
    /\ forall c, entry_len (fst st') (cell_type_value c) + entry_len (snd st') (cell_type_value c)
                 = entry_len (fst st) (cell_type_value c) + entry_len (snd st) (cell_type_value c)
                   + (if qualifies th row then 1 else 0).
Proof.
  intros Hinv Hwt Hwr Hperm.
  destruct (Hwt TREATMENT_HEADER ltac:(simpl; tauto)) as [t Ht].
  destruct (Hwt SAMPLE_TYPE_HEADER ltac:(simpl; tauto)) as [sty Hsty].
  destruct (Hwt SAMPLE_HEADER ltac:(simpl; tauto)) as [sid Hsid].
  destruct (Hwt RESPONSE_HEADER ltac:(simpl; tauto)) as [resp Hresp].
  destruct st as [r n]. unfold qualifies, responders_step. rewrite Ht. cbn [bind].
  destruct (String.eqb t TREATMENT); cbn [andb];
    [|exists (r, n); split; [reflexivity | intros c; simpl; lia]].
  rewrite Hsty. cbn [bind].
  destruct (py_in sty INCLUDE_SAMPLE_TYPES);
    [|exists (r, n); split; [reflexivity | intros c; simpl; lia]].
  rewrite Hsid. cbn [bind].
  pose proof (Hperm sid Hsid) as Hp.
  destruct (sample_relative_loop rh sid rcsv [] Hwr) as [rel [Hrel Hkeys]].
  { simpl. apply (Permutation_NoDup (Permutation_sym Hp)), cell_type_values_nodup. }
  simpl app in Hkeys.
  unfold get_sample_relative. rewrite Hrel. cbn [bind]. rewrite Hresp. cbn [bind].
  assert (Hcnt : forall c, count_occ string_dec (map fst rel) (cell_type_value c) = 1).
  { intros c. rewrite Hkeys. rewrite (proj1 (Permutation_count_occ string_dec _ _) Hp).
    apply cell_type_value_count. }
  assert (Hkin : forall k, In k (map fst rel) -> exists c, k = cell_type_value c).
  { intros k Hk. rewrite Hkeys in Hk. apply (Permutation_in _ Hp), in_map_iff in Hk.
    destruct Hk as [c [<- _]]. exists c. reflexivity. }
  destruct (String.eqb resp RESPONDING).
  - destruct (append_all_spec rel r) as [r' [Ha Hl]].
    { intros k Hk. destruct (Hkin k Hk) as [c ->]. exact (proj1 (Hinv c)). }
    rewrite Ha. cbn [bind]. exists (r', n). split; [reflexivity|].
    intros c. simpl. rewrite Hl, Hcnt. lia.
  - destruct (append_all_spec rel n) as [n' [Ha Hl]].
    { intros k Hk. destruct (Hkin k Hk) as [c ->]. exact (proj2 (Hinv c)). }
    rewrite Ha. cbn [bind]. exists (r, n'). split; [reflexivity|].
    intros c. simpl. rewrite Hl, Hcnt. lia.
Qed.

Lemma responders_loop_counts (th rh : CsvHeaders) (rcsv : Csv) :
  forall tcsv st,
  all_cell_entries st ->
  (forall row, In row tcsv -> wf_treatment_row th row) ->
  (forall r, In r rcsv -> wf_relative_row rh r) ->
  (forall row sid, In row tcsv -> field th row SAMPLE_HEADER = Ok sid ->
     Permutation (populations_of rh rcsv sid) (map cell_type_value CELL_TYPES)) ->
  exists st', foldM (responders_step th rh rcsv) st tcsv = Ok st'
    /\ forall c, entry_len (fst st') (cell_type_value c) + entry_len (snd st') (cell_type_value c)
                 = entry_len (fst st) (cell_type_value c) + entry_len (snd st) (cell_type_value c)
                   + List.length (filter (qualifies th) tcsv).
Proof.
  induction tcsv as [|row tcsv IH]; intros st Hinv Hwt Hwr Hperm; cbn [foldM].
  - exists st. split; [reflexivity|]. intros c. simpl. lia.
  - destruct (responders_step_counts th rh rcsv st row Hinv (Hwt row (or_introl eq_refl)) Hwr
                (fun sid => Hperm row sid (or_introl eq_refl))) as [st1 [Hs1 Hc1]].
    rewrite Hs1. cbn [bind].
    destruct (IH st1) as [st' [Hst' Hc']].
    + exact (responders_step_entries _ _ _ _ _ _ Hinv Hs1).
    + intros row' Hr. apply Hwt. right. exact Hr.
    + exact Hwr.
    + intros row' sid Hr. apply Hperm. right. exact Hr.
    + exists st'. split; [exact Hst'|]. intros c. rewrite Hc', Hc1.
      simpl filter. destruct (qualifies th row); simpl; lia.
Qed.

(** C4: when every treatment row carries the columns the aggregator reads,
    every relative-count record is well formed, and each sample id of the
    treatment table has exactly one record per cell type (its records'
    populations are a permutation of the five cell types), then
    [calculate_responders] succeeds and, for each cell type, the two
    cohort lists together hold exactly one entry per treatment row that
    passes the treatment/sample-type filter. *)
Theorem calculate_responders_counts (th : CsvHeaders) (tcsv : Csv) (rh : CsvHeaders)
    (rcsv : Csv) :
  (forall row, In row tcsv -> wf_treatment_row th row) ->
  (forall r, In r rcsv -> wf_relative_row rh r) ->
  (forall row sid, In row tcsv -> field th row SAMPLE_HEADER = Ok sid ->
     Permutation (populations_of rh rcsv sid) (map cell_type_value CELL_TYPES)) ->
  exists r n, calculate_responders th tcsv rh rcsv = Ok (r, n)
    /\ forall c, exists lr ln, dict_get r (cell_type_value c) = Some lr
                   /\ dict_get n (cell_type_value c) = Some ln
                   /\ List.length lr + List.length ln = List.length (filter (qualifies th) tcsv).
Proof.
  intros Hwt Hwr Hperm.
  destruct (responders_loop_counts th rh rcsv tcsv init_state init_all_cell_entries
              Hwt Hwr Hperm) as [[r n] [Hst Hc]].
  exists r, n. split; [exact Hst|].
  intros c.
  destruct (foldM_responders_entries th rh rcsv tcsv init_state (r, n)
              init_all_cell_entries Hst c) as [[lr Hr] [ln Hn]].
  cbn [fst snd] in Hr, Hn.
  exists lr, ln. split; [exact Hr|]. split; [exact Hn|].
  assert (Hi : dict_get (fst init_state) (cell_type_value c) = Some []
               /\ dict_get (snd init_state) (cell_type_value c) = Some [])
    by (destruct c; split; reflexivity).
  specialize (Hc c). cbn [fst snd] in Hc, Hi. unfold entry_len in Hc.
  rewrite Hr, Hn, (proj1 Hi), (proj2 Hi) in Hc. simpl in Hc. lia.
Qed.

Lemma calculate_responders_counts_witness :
  exists r n,
    calculate_responders treatment_headers_std
      [["S1"; "tr1"; "PBMC"; "y"; "10"; "20"; "30"; "20"; "20"];
       ["S2"; "tr1"; "PBMC"; "n"; "1"; "1"; "1"; "1"; "3"];
       ["S3"; "tr1"; "Tumor"; "n"; "1"; "1"; "1"; "1"; "3"]]
      relative_headers_std
      [["S1"; "100"; "b_cell"; "10"; "10.00"]; ["S1"; "100"; "cd8_t_cell"; "20"; "20.00"];
       ["S1"; "100"; "cd4_t_cell"; "30"; "30.00"]; ["S1"; "100"; "nk_cell"; "20"; "20.00"];
       ["S1"; "100"; "monocyte"; "20"; "20.00"];
       ["S2"; "7"; "monocyte"; "3"; "42.86"]; ["S2"; "7"; "b_cell"; "1"; "14.29"];
       ["S2"; "7"; "cd8_t_cell"; "1"; "14.29"]; ["S2"; "7"; "cd4_t_cell"; "1"; "14.29"];
       ["S2"; "7"; "nk_cell"; "1"; "0.00"];
       ["S3"; "7"; "b_cell"; "1"; "14.29"]; ["S3"; "7"; "cd8_t_cell"; "1"; "14.29"];
       ["S3"; "7"; "cd4_t_cell"; "1"; "14.29"]; ["S3"; "7"; "nk_cell"; "1"; "14.29"];
       ["S3"; "7"; "monocyte"; "3"; "42.86"]]
    = Ok (r, n)
    /\ forall c, exists lr ln, dict_get r (cell_type_value c) = Some lr
                   /\ dict_get n (cell_type_value c) = Some ln
                   /\ List.length lr + List.length ln = 2.
Proof.
  apply calculate_responders_counts.
  - intros row Hrow k Hk. simpl in Hrow, Hk.
    repeat destruct Hrow as [<-|Hrow]; try contradiction;
      repeat destruct Hk as [<-|Hk]; try contradiction; eexists; reflexivity.
  - intros r Hr. simpl in Hr.
    repeat destruct Hr as [<-|Hr]; try contradiction;
      (do 4 eexists; split; [reflexivity | split; [reflexivity | split; reflexivity]]).
  - intros row sid Hrow Hsid. simpl in Hrow.
    repeat destruct Hrow as [<-|Hrow]; try contradiction;
      injection Hsid as <-; vm_compute;
      first [ apply Permutation_refl
            | apply (Permutation_cons_append
                       ["b_cell"; "cd8_t_cell"; "cd4_t_cell"; "nk_cell"] "monocyte") ].
Defined.

(* ------------------------------------------------------------------ *)
(** ** Reading CSV files and the converters' entry points *)

(** [read_csv] raises [ValueError] exactly when the parsed file has no row
    or its first row lacks a required name; otherwise the header map is
    resolved from the first row and the data rows are all the other rows,
    in file order, the header row excluded. *)
Theorem read_csv_contract (read_rows : string -> string -> result Csv) (csv_path : string)
    (req : list string) (delimiter : string) (rows : Csv) :
  read_rows csv_path delimiter = Ok rows ->
  (read_csv read_rows csv_path req delimiter = Err ValueError
     <-> rows = [] \/ exists hdr rest h, rows = hdr :: rest /\ In h req /\ ~ In h hdr)
  /\ (forall hdr rest, rows = hdr :: rest -> (forall h, In h req -> In h hdr) ->
        exists m, get_csv_headers hdr req = Ok m
          /\ read_csv read_rows csv_path req delimiter = Ok (m, rest)).
Proof.
  intros Hr. unfold read_csv. rewrite Hr. cbn [bind]. split.
  - destruct rows as [|hdr rest].
    + split; [intros _; left; reflexivity | intros _; reflexivity].
    + split.
      * intros H. right. exists hdr, rest.
        destruct (get_csv_headers hdr req) as [m|e] eqn:E; cbn [bind] in H; [discriminate|].
        injection H as ->. destruct (proj1 (get_csv_headers_err_iff hdr req) E) as [h Hh].
        exists h. split; [reflexivity | exact Hh].
      * intros [H|[hdr' [rest' [h [Heq Hh]]]]]; [discriminate|].
        injection Heq as <- <-. rewrite (get_csv_headers_missing hdr req (ex_intro _ h Hh)).
        reflexivity.
  - intros hdr rest -> Hin. destruct (get_csv_headers_ok hdr req Hin) as [m [Hm _]].
    exists m. split; [exact Hm|]. rewrite Hm. reflexivity.
Qed.

Lemma read_csv_contract_witness :
  read_csv (fun _ _ => Ok [["sample"; "b_cell"]; ["S1"; "3"]]) "in.csv" ["b_cell"] ","
    = Ok ([("b_cell", 1)], [["S1"; "3"]])
  /\ read_csv (fun _ _ => Ok []) "empty.csv" ["b_cell"] "," = Err ValueError.
Proof.
  split.
  - destruct (proj2 (read_csv_contract (fun _ _ => Ok [["sample"; "b_cell"]; ["S1"; "3"]])
                       "in.csv" ["b_cell"] "," _ eq_refl) ["sample"; "b_cell"] [["S1"; "3"]]
                eq_refl) as [m [Hm Hr]].
    + intros h [<-|[]]. simpl. right. left. reflexivity.
    + rewrite Hr. injection Hm as <-. reflexivity.
  - apply (proj2 (proj1 (read_csv_contract (fun _ _ => Ok []) "empty.csv" ["b_cell"] ","
                           [] eq_refl))).
    left. reflexivity.
Defined.

(** relative_cell_counter.main builds its required headers as
    [[SAMPLE_HEADER] + CELL_TYPES], a list plus the enum class: once the
    arguments parse, every run raises [TypeError] before the CSV is read,
    so nothing is converted or written. *)
Theorem counter_main_type_error (Fig : Type) (parse_args : list string -> result converter_args)
    (read_rows : string -> string -> result Csv) (args : list string) (a : converter_args) :
  parse_args args = Ok a ->
  counter_main Fig parse_args read_rows args = Err TypeError.
Proof.
  intros Hp. unfold counter_main. rewrite Hp. reflexivity.
Qed.

Lemma counter_main_type_error_witness :
  counter_main unit
    (fun _ => Ok {| ca_csv_file := "cell-count.csv"; ca_output := None; ca_delimiter := "," |})
    (fun _ _ => Ok [["sample"; "b_cell"; "cd8_t_cell"; "cd4_t_cell"; "nk_cell"; "monocyte"];
                    ["S1"; "10"; "20"; "30"; "20"; "20"]])
    ["cell-count.csv"]
  = Err TypeError.
Proof.
  apply (counter_main_type_error unit _ _ ["cell-count.csv"]
           {| ca_csv_file := "cell-count.csv"; ca_output := None; ca_delimiter := "," |}).
  reflexivity.
Defined.

(** relative_cell_counts.main: an empty input file raises [ValueError];
    for a file whose first row holds the sample column and the five cell
    types, the run converts the remaining rows with the resolved header map
    and, when the conversion succeeds, makes exactly one write, of the
    converted table, to the requested output (stdout when none), and
    returns 0; a conversion error is raised unchanged with nothing written. *)
Theorem counts_main_runs (Fig : Type) (parse_args : list string -> result converter_args)
    (read_rows : string -> string -> result Csv) (args : list string) (a : converter_args) :
  parse_args args = Ok a ->
  (read_rows (ca_csv_file a) (ca_delimiter a) = Ok [] ->
   counts_main Fig parse_args read_rows args = Err ValueError)
  /\ (forall hdr rows, read_rows (ca_csv_file a) (ca_delimiter a) = Ok (hdr :: rows) ->
        (forall h, In h (SAMPLE_HEADER :: map cell_type_value CELL_TYPES) -> In h hdr) ->
        exists m, get_csv_headers hdr (SAMPLE_HEADER :: map cell_type_value CELL_TYPES) = Ok m
          /\ (forall out, convert_cell_count m rows = Ok out ->
                counts_main Fig parse_args read_rows args
                = Ok ([EvWriteCsv (ca_output a) out (ca_delimiter a)], 0%Z))
          /\ (forall e, convert_cell_count m rows = Err e ->
                counts_main Fig parse_args read_rows args = Err e)).
Proof.
  intros Hp. unfold counts_main, read_csv_fixed. rewrite Hp. cbn [bind]. split.
  - intros Hr. rewrite Hr. reflexivity.
  - intros hdr rows Hr Hin. rewrite Hr. cbn [bind].
    destruct (get_csv_headers_ok hdr _ Hin) as [m [Hm _]].
    exists m. split; [exact Hm|]. unfold get_csv_headers_fixed. rewrite Hm. cbn [bind].
    split; intros ? Hc; rewrite Hc; reflexivity.
Qed.

Lemma counts_main_runs_witness :
  counts_main unit
    (fun _ => Ok {| ca_csv_file := "cell-count.csv"; ca_output := Some "out.csv";
                    ca_delimiter := "," |})
    (fun _ _ => Ok [["sample"; "b_cell"; "cd8_t_cell"; "cd4_t_cell"; "nk_cell"; "monocyte"];
                    ["S1"; "10"; "20"; "30"; "20"; "20"]])
    ["cell-count.csv"; "-o"; "out.csv"]
  = Ok ([EvWriteCsv (Some "out.csv")
           [OUTPUT_HEADERS;
            ["S1"; "100"; "b_cell"; "10"; "10.00"]; ["S1"; "100"; "cd8_t_cell"; "20"; "20.00"];
            ["S1"; "100"; "cd4_t_cell"; "30"; "30.00"]; ["S1"; "100"; "nk_cell"; "20"; "20.00"];
            ["S1"; "100"; "monocyte"; "20"; "20.00"]] ","], 0%Z).
Proof.
  destruct (proj2 (counts_main_runs unit
                     (fun _ => Ok {| ca_csv_file := "cell-count.csv"; ca_output := Some "out.csv";
                                     ca_delimiter := "," |})
                     (fun _ _ => Ok [["sample"; "b_cell"; "cd8_t_cell"; "cd4_t_cell"; "nk_cell";
                                      "monocyte"]; ["S1"; "10"; "20"; "30"; "20"; "20"]])
                     ["cell-count.csv"; "-o"; "out.csv"] _ eq_refl)
                  _ _ eq_refl) as [m [Hm [Hok _]]].
  - intros h Hh. simpl in Hh. simpl.
    repeat destruct Hh as [<-|Hh]; try contradiction; tauto.
  - apply Hok. injection Hm as <-. vm_compute. reflexivity.
Defined.

(* ------------------------------------------------------------------ *)
(** ** Reading back what the converter writes *)





Lemma convert_rows_loop_ok (hdrs : CsvHeaders) :
  forall rows blocks acc,
  Forall2 (fun row block => convert_sample_cell_count hdrs row = Ok block) rows blocks ->
  foldM (fun output_csv csv_row =>
           rows <- convert_sample_cell_count hdrs csv_row ;;
           Ok (output_csv ++ rows)%list) acc rows = Ok (acc ++ List.concat blocks)%list.
Proof.
  intros rows blocks acc H. revert acc.
  induction H as [|row block rows blocks Hb Hrest IH]; intros acc; cbn [foldM].
  - rewrite app_nil_r. reflexivity.
  - rewrite Hb. cbn [bind]. rewrite IH. cbn [List.concat]. rewrite app_assoc. reflexivity.
Qed.

Lemma convert_rows_loop_err (hdrs : CsvHeaders) (e : py_error) :
  forall rows acc,
  foldM (fun output_csv csv_row =>
           rows <- convert_sample_cell_count hdrs csv_row ;;
           Ok (output_csv ++ rows)%list) acc rows = Err e
  <-> exists l1 row l2 blocks, rows = (l1 ++ row :: l2)%list
        /\ Forall2 (fun row block => convert_sample_cell_count hdrs row = Ok block) l1 blocks
        /\ convert_sample_cell_count hdrs row = Err e.
Proof.
  induction rows as [|r rows IH]; intros acc; cbn [foldM].
  - split; [discriminate|]. intros [l1 [row [l2 [blocks [Heq _]]]]].
    destruct l1; discriminate.
  - destruct (convert_sample_cell_count hdrs r) as [b|e'] eqn:Er; cbn [bind].
    + rewrite IH. split.
      * intros [l1 [row [l2 [blocks [-> [Hf He]]]]]].
        exists (r :: l1), row, l2, (b :: blocks). split; [reflexivity|].
        split; [constructor; assumption | exact He].
      * intros [l1 [row [l2 [blocks [Heq [Hf He]]]]]].
        destruct l1 as [|r' l1]; injection Heq as <- Heq.
        -- congruence.
        -- inversion Hf as [|x y l1' blocks' Hx Hrest]; subst.
           exists l1, row, l2, blocks'. auto.
    + split.
      * intros H. injection H as <-. exists [], r, rows, []. auto.
      * intros [l1 [row [l2 [blocks [Heq [Hf He]]]]]].
        destruct l1 as [|r' l1]; injection Heq as <- Heq.
        -- congruence.
        -- inversion Hf as [|x y l1' blocks' Hx Hrest]; subst. congruence.
Qed.

(** [convert_cell_count] succeeds exactly when every row converts, and then
    returns the header row followed by the rows' records in input order; it
    raises exactly the error of the first row whose conversion fails (rows
    after it are not looked at). *)
Theorem convert_cell_count_result (hdrs : CsvHeaders) (rows : Csv) :
  (forall out, convert_cell_count hdrs rows = Ok out
     <-> exists blocks,
           Forall2 (fun row block => convert_sample_cell_count hdrs row = Ok block) rows blocks
           /\ out = OUTPUT_HEADERS :: List.concat blocks)
  /\ (forall e, convert_cell_count hdrs rows = Err e
       <-> exists l1 row l2 blocks, rows = (l1 ++ row :: l2)%list
             /\ Forall2 (fun row block => convert_sample_cell_count hdrs row = Ok block) l1 blocks
             /\ convert_sample_cell_count hdrs row = Err e).
Proof.
  split.
  - intros out. split.
    + intros H. destruct (convert_rows_loop hdrs rows [OUTPUT_HEADERS] out H)
        as [blocks [-> Hb]].
      exists blocks. split; [exact Hb | reflexivity].
    + intros [blocks [Hb ->]]. unfold convert_cell_count.
      rewrite (convert_rows_loop_ok hdrs rows blocks _ Hb). reflexivity.
  - intros e. apply convert_rows_loop_err.
Qed.

Lemma convert_cell_count_result_witness :
  convert_cell_count sample_headers_std
    [["S1"; "1"; "1"; "1"; "1"; "1"]; ["S2"; "0"; "0"; "0"; "0"; "0"]; ["S3"; "x"; "1"; "1"; "1"; "1"]]
  = Err ZeroDivisionError.
Proof.
  apply (proj2 (convert_cell_count_result sample_headers_std _) ZeroDivisionError).
  exists [["S1"; "1"; "1"; "1"; "1"; "1"]], ["S2"; "0"; "0"; "0"; "0"; "0"],
         [["S3"; "x"; "1"; "1"; "1"; "1"]].
  eexists. split; [reflexivity|]. split.
  - constructor; [vm_compute; reflexivity | constructor].
  - reflexivity.
Defined.

(* ------------------------------------------------------------------ *)
(** ** The per-sample lookup, in general *)

Lemma sample_relative_loop_values (rh : CsvHeaders) (sid : string) :
  forall rcsv acc,
  (forall r, In r rcsv -> wf_relative_row rh r) ->
  NoDup (map fst acc ++ populations_of rh rcsv sid) ->
  exists acc', foldM (sample_relative_step rh sid) acc rcsv = Ok acc'
    /\ map fst acc' = (map fst acc ++ populations_of rh rcsv sid)%list
    /\ (forall k, ~ In k (populations_of rh rcsv sid) -> dict_get acc' k = dict_get acc k)
    /\ (forall r ct p q, In r rcsv -> field rh r SAMPLE_HEADER = Ok sid ->
          field rh r POPULATION_HEADER = Ok ct -> field rh r PERCENTAGE_HEADER = Ok p ->
          parse_float p = Some q -> dict_get acc' ct = Some q).
Proof.
  induction rcsv as [|r rcsv IH]; intros acc Hwf Hnd; cbn [foldM].
  - exists acc. split; [reflexivity|]. split; [simpl; rewrite app_nil_r; reflexivity|].
    split; [reflexivity|]. intros r ct p q [].
  - destruct (Hwf r (or_introl eq_refl)) as [s [ct [p [q [Hs [Hc [Hp Hq]]]]]]].
    assert (Hwf' : forall r', In r' rcsv -> wf_relative_row rh r')
      by (intros r' Hr'; apply Hwf; right; exact Hr').
    assert (Hpop : populations_of rh (r :: rcsv) sid
                   = ((if String.eqb s sid then [ct] else []) ++ populations_of rh rcsv sid)%list)
      by (unfold populations_of; simpl; rewrite Hs, Hc; reflexivity).
    rewrite Hpop in Hnd |- *.
    unfold sample_relative_step at 1. rewrite Hs. cbn [bind].
    destruct (String.eqb s sid) eqn:Esid.
    + apply String.eqb_eq in Esid. subst s.
      rewrite Hc. cbn [bind]. simpl app in Hnd.
      assert (Hnin : ~ In ct (map fst acc))
        by (intros Hin; apply (NoDup_remove_2 _ _ _ Hnd), in_or_app; left; exact Hin).
      assert (Hnin2 : ~ In ct (populations_of rh rcsv sid))
        by (intros Hin; apply (NoDup_remove_2 _ _ _ Hnd), in_or_app; right; exact Hin).
      rewrite (dict_get_notin _ _ Hnin). cbn [truthy_opt].
      rewrite Hp. cbn [bind]. unfold py_float. rewrite Hq. cbn [bind].
      destruct (IH (dict_set acc ct q) Hwf') as [acc' [Ha [Hk [Hfr Hv]]]].
      { rewrite dict_set_keys_new by exact Hnin. rewrite <- app_assoc. exact Hnd. }
      exists acc'. split; [exact Ha|]. split.
      { rewrite Hk, dict_set_keys_new by exact Hnin. rewrite <- app_assoc. reflexivity. }
      split.
      * intros k Hk'. rewrite Hfr by (intros Hin; apply Hk'; right; exact Hin).
        rewrite dict_get_set. destruct (String.eqb k ct) eqn:E; [|reflexivity].
        apply String.eqb_eq in E. subst k. exfalso. apply Hk'. left. reflexivity.
      * intros r' ct' p' q' [<-|Hin] Hs' Hc' Hp' Hq'.
        -- rewrite Hc in Hc'. injection Hc' as <-. rewrite Hp in Hp'. injection Hp' as <-.
           rewrite Hq in Hq'. injection Hq' as <-.
           rewrite Hfr by exact Hnin2. rewrite dict_get_set, String.eqb_refl. reflexivity.
        -- exact (Hv r' ct' p' q' Hin Hs' Hc' Hp' Hq').
    + cbn [bind]. simpl app in Hnd |- *.
      destruct (IH acc Hwf' Hnd) as [acc' [Ha [Hk [Hfr Hv]]]].
      exists acc'. split; [exact Ha|]. split; [exact Hk|]. split; [exact Hfr|].
      intros r' ct' p' q' [<-|Hin] Hs' Hc' Hp' Hq'.
      * rewrite Hs in Hs'. injection Hs' as ->. rewrite String.eqb_refl in Esid. discriminate.
      * exact (Hv r' ct' p' q' Hin Hs' Hc' Hp' Hq').
Qed.

(** When the records of a sample name pairwise distinct populations (and
    every record has a sample, a population and a numeric percentage),
    [get_sample_relative] succeeds and returns a mapping whose keys are
    those populations in table order, each mapped to [float()] of its
    record's percentage. *)
Theorem get_sample_relative_distinct (rh : CsvHeaders) (rcsv : Csv) (sid : string) :
  (forall r, In r rcsv -> wf_relative_row rh r) ->
  NoDup (populations_of rh rcsv sid) ->
  exists d, get_sample_relative rh rcsv sid = Ok d
    /\ map fst d = populations_of rh rcsv sid
    /\ (forall r ct p q, In r rcsv -> field rh r SAMPLE_HEADER = Ok sid ->
          field rh r POPULATION_HEADER = Ok ct -> field rh r PERCENTAGE_HEADER = Ok p ->
          parse_float p = Some q -> dict_get d ct = Some q).
Proof.
  intros Hwf Hnd.
  destruct (sample_relative_loop_values rh sid rcsv [] Hwf Hnd) as [d [Hd [Hk [_ Hv]]]].
  exists d. split; [exact Hd|]. split; [exact Hk | exact Hv].
Qed.

Lemma get_sample_relative_distinct_witness :
  exists d, get_sample_relative relative_headers_std
              [["S1"; "100"; "b_cell"; "10"; "10.00"]; ["S2"; "50"; "b_cell"; "5"; "10.00"];
               ["S1"; "100"; "monocyte"; "90"; "90.00"]] "S1" = Ok d
    /\ map fst d = ["b_cell"; "monocyte"]
    /\ (forall r ct p q, In r [["S1"; "100"; "b_cell"; "10"; "10.00"];
                               ["S2"; "50"; "b_cell"; "5"; "10.00"];
                               ["S1"; "100"; "monocyte"; "90"; "90.00"]] ->
          field relative_headers_std r SAMPLE_HEADER = Ok "S1" ->
          field relative_headers_std r POPULATION_HEADER = Ok ct ->
          field relative_headers_std r PERCENTAGE_HEADER = Ok p ->
          parse_float p = Some q -> dict_get d ct = Some q).
Proof.
  apply get_sample_relative_distinct.
  - intros r Hr. simpl in Hr.
    repeat destruct Hr as [<-|Hr]; try contradiction;
      (do 4 eexists; split; [reflexivity | split; [reflexivity | split; reflexivity]]).
  - vm_compute. repeat constructor; simpl; intuition discriminate.
Defined.

Lemma foldM_app {A B} (f : A -> B -> result A) (a : A) (l1 l2 : list B) :
  foldM f a (l1 ++ l2)%list = (x <- foldM f a l1 ;; foldM f x l2).
Proof.
  revert a. induction l1 as [|b l1 IH]; intros a; cbn [foldM app]; [reflexivity|].
  destruct (f a b); cbn [bind]; [apply IH | reflexivity].
Qed.

Lemma sample_relative_step_wf (rh : CsvHeaders) (sid : string) (acc : dict Q) (r : Row)
    (s ct p : string) (q : Q) :
  field rh r SAMPLE_HEADER = Ok s -> field rh r POPULATION_HEADER = Ok ct ->
  field rh r PERCENTAGE_HEADER = Ok p -> parse_float p = Some q ->
  sample_relative_step rh sid acc r
  = if String.eqb s sid then
      if truthy_opt (dict_get acc ct) then Err ValueError else Ok (dict_set acc ct q)
    else Ok acc.
Proof.
  intros Hs Hc Hp Hq. unfold sample_relative_step. rewrite Hs. cbn [bind].
  destruct (String.eqb s sid); [|reflexivity]. rewrite Hc. cbn [bind].
  destruct (truthy_opt (dict_get acc ct)); [reflexivity|].
  rewrite Hp. cbn [bind]. unfold py_float. rewrite Hq. reflexivity.
Qed.

(** Records that do not carry the pair (sid, ct) leave the entry of [ct]
    alone; the only exception they can raise is [ValueError]. *)
Lemma sample_relative_frame (rh : CsvHeaders) (sid ct : string) :
  forall l acc,
  (forall r, In r l -> wf_relative_row rh r) ->
  (forall r, In r l -> field rh r SAMPLE_HEADER = Ok sid -> field rh r POPULATION_HEADER <> Ok ct) ->
  foldM (sample_relative_step rh sid) acc l = Err ValueError
  \/ exists acc', foldM (sample_relative_step rh sid) acc l = Ok acc'
                  /\ dict_get acc' ct = dict_get acc ct.
Proof.
  induction l as [|r l IH]; intros acc Hwf Hno; cbn [foldM].
  - right. exists acc. split; reflexivity.
  - destruct (Hwf r (or_introl eq_refl)) as [s [ct' [p [q [Hs [Hc [Hp Hq]]]]]]].
    assert (Hwf' : forall r', In r' l -> wf_relative_row rh r')
      by (intros r' Hr'; apply Hwf; right; exact Hr').
    assert (Hno' : forall r', In r' l -> field rh r' SAMPLE_HEADER = Ok sid ->
                              field rh r' POPULATION_HEADER <> Ok ct)
      by (intros r' Hr'; apply Hno; right; exact Hr').
    rewrite (sample_relative_step_wf rh sid acc r s ct' p q Hs Hc Hp Hq).
    destruct (String.eqb s sid) eqn:Esid; [|cbn [bind]; apply IH; assumption].
    apply String.eqb_eq in Esid. subst s.
    destruct (truthy_opt (dict_get acc ct')); [left; reflexivity|]. cbn [bind].
    destruct (IH (dict_set acc ct' q) Hwf' Hno') as [H|[acc' [Ha Hg]]]; [left; exact H|].
    right. exists acc'. split; [exact Ha|]. rewrite Hg, dict_get_set.
    destruct (String.eqb ct ct') eqn:E; [|reflexivity].
    apply String.eqb_eq in E. subst ct'. exfalso.
    exact (Hno r (or_introl eq_refl) Hs Hc).
Qed.

(** Once [ct] holds a non-zero percentage, a later record with the pair
    (sid, ct) makes the lookup raise [ValueError]. *)
Lemma sample_relative_sticky (rh : CsvHeaders) (sid ct : string) :
  forall l acc v,
  (forall r, In r l -> wf_relative_row rh r) ->
  dict_get acc ct = Some v -> ~ (v == 0)%Q ->
  (exists r, In r l /\ field rh r SAMPLE_HEADER = Ok sid /\ field rh r POPULATION_HEADER = Ok ct) ->
  foldM (sample_relative_step rh sid) acc l = Err ValueError.
Proof.
  assert (Htr : forall v, ~ (v == 0)%Q -> truthy_opt (Some v) = true).
  { intros v Hv. cbn [truthy_opt]. destruct (Qeq_bool v 0) eqn:E; [|reflexivity].
    apply Qeq_bool_eq in E. contradiction. }
  induction l as [|r l IH]; intros acc v Hwf Hg Hv [r2 [Hin [Hs2 Hc2]]]; [destruct Hin|].
  cbn [foldM].
  destruct (Hwf r (or_introl eq_refl)) as [s [ct' [p [q [Hs [Hc [Hp Hq]]]]]]].
  assert (Hwf' : forall r', In r' l -> wf_relative_row rh r')
    by (intros r' Hr'; apply Hwf; right; exact Hr').
  rewrite (sample_relative_step_wf rh sid acc r s ct' p q Hs Hc Hp Hq).
  destruct (String.eqb s sid) eqn:Esid.
  - apply String.eqb_eq in Esid. subst s.
    destruct (truthy_opt (dict_get acc ct')) eqn:Et; [reflexivity|]. cbn [bind].
    assert (Hne : String.eqb ct ct' = false).
    { destruct (String.eqb ct ct') eqn:E; [|reflexivity].
      apply String.eqb_eq in E. subst ct'. rewrite Hg, (Htr v Hv) in Et. discriminate. }
    destruct Hin as [<-|Hin].
    + rewrite Hc in Hc2. injection Hc2 as ->. rewrite String.eqb_refl in Hne. discriminate.
    + apply (IH _ v Hwf'); [rewrite dict_get_set, Hne; exact Hg | exact Hv |].
      exists r2. auto.
  - cbn [bind]. destruct Hin as [<-|Hin].
    + rewrite Hs in Hs2. injection Hs2 as ->. rewrite String.eqb_refl in Esid. discriminate.
    + apply (IH acc v Hwf' Hg Hv). exists r2. auto.
Qed.

Lemma sample_relative_nonzero_dup_core (rh : CsvHeaders) (l1 l2 : Csv) (r1 : Row)
    (sid ct p : string) (q : Q) :
  (forall r, In r (l1 ++ r1 :: l2)%list -> wf_relative_row rh r) ->
  (forall r, In r l1 -> field rh r SAMPLE_HEADER = Ok sid -> field rh r POPULATION_HEADER <> Ok ct) ->
  field rh r1 SAMPLE_HEADER = Ok sid -> field rh r1 POPULATION_HEADER = Ok ct ->
  field rh r1 PERCENTAGE_HEADER = Ok p -> parse_float p = Some q -> ~ (q == 0)%Q ->
  (exists r2, In r2 l2 /\ field rh r2 SAMPLE_HEADER = Ok sid
              /\ field rh r2 POPULATION_HEADER = Ok ct) ->
  get_sample_relative rh (l1 ++ r1 :: l2)%list sid = Err ValueError.
Proof.
  intros Hwf Hno Hs Hc Hp Hq Hnz Hdup.
  unfold get_sample_relative. rewrite foldM_app.
  destruct (sample_relative_frame rh sid ct l1 []) as [H|[acc1 [Ha Hg]]].
  - intros r Hr. apply Hwf, in_or_app. left. exact Hr.
  - exact Hno.
  - rewrite H. reflexivity.
  - rewrite Ha. cbn [bind foldM]. cbn [dict_get] in Hg.
    rewrite (sample_relative_step_wf rh sid acc1 r1 sid ct p q Hs Hc Hp Hq).
    rewrite String.eqb_refl, Hg. cbn [truthy_opt bind].
    apply (sample_relative_sticky rh sid ct l2 _ q); [| | exact Hnz | exact Hdup].
    + intros r Hr. apply Hwf, in_or_app. right. right. exact Hr.
    + rewrite dict_get_set, String.eqb_refl. reflexivity.
Qed.

(** A duplicate (sample, cell type) record is rejected whenever the first
    record of the pair has a non-zero percentage: with well-formed records,
    [get_sample_relative] then raises [ValueError], whatever the records
    around it (the 0.00 case is the exception shown for C1). *)
Theorem get_sample_relative_nonzero_duplicate (rh : CsvHeaders) (l1 l2 : Csv) (r1 : Row)
    (sid ct p : string) (q : Q) :
  (forall r, In r (l1 ++ r1 :: l2)%list -> wf_relative_row rh r) ->
  (forall r, In r l1 -> field rh r SAMPLE_HEADER = Ok sid -> field rh r POPULATION_HEADER <> Ok ct) ->
  field rh r1 SAMPLE_HEADER = Ok sid -> field rh r1 POPULATION_HEADER = Ok ct ->
  field rh r1 PERCENTAGE_HEADER = Ok p -> parse_float p = Some q -> ~ (q == 0)%Q ->
  (exists r2, In r2 l2 /\ field rh r2 SAMPLE_HEADER = Ok sid
              /\ field rh r2 POPULATION_HEADER = Ok ct) ->
  get_sample_relative rh (l1 ++ r1 :: l2)%list sid = Err ValueError.
Proof. exact (sample_relative_nonzero_dup_core rh l1 l2 r1 sid ct p q). Qed.

Lemma get_sample_relative_nonzero_duplicate_witness :
  get_sample_relative relative_headers_std
    ([["S1"; "100"; "b_cell"; "0"; "0.00"]; ["S2"; "10"; "nk_cell"; "1"; "10.00"]]
       ++ ["S1"; "100"; "nk_cell"; "5"; "5.00"]
       :: [["S1"; "100"; "b_cell"; "10"; "10.00"]; ["S1"; "100"; "nk_cell"; "3"; "3.00"]])%list
    "S1"
  = Err ValueError.
Proof.
  eapply (get_sample_relative_nonzero_duplicate _ _ _ _ "S1" "nk_cell" "5.00").
  - intros r Hr. simpl in Hr.
    repeat destruct Hr as [<-|Hr]; try contradiction;
      (do 4 eexists; split; [reflexivity | split; [reflexivity | split; reflexivity]]).
  - intros r Hr. simpl in Hr.
    repeat destruct Hr as [<-|Hr]; try contradiction; intros Hs; cbv; discriminate.
  - reflexivity.
  - reflexivity.
  - reflexivity.
  - vm_compute. reflexivity.
  - intros H. vm_compute in H. discriminate.
  - exists ["S1"; "100"; "nk_cell"; "3"; "3.00"]. split; [simpl; tauto|].
    split; reflexivity.
Defined.

(* ------------------------------------------------------------------ *)
(** ** Box plots *)

(** Whenever [calculate_responders] succeeds, [generate_boxplots] succeeds
    too (its [responders[cell_type]] lookups never raise [KeyError]): it
    returns one figure per cell type, keyed in enumeration order, each built
    from that type's responder and non-responder lists.  An exception of
    [calculate_responders] is raised unchanged. *)
Theorem generate_boxplots_result (Fig : Type) (generate_boxplot : string -> list Q -> list Q -> Fig)
    (th : CsvHeaders) (tcsv : Csv) (rh : CsvHeaders) (rcsv : Csv) :
  (forall r n, calculate_responders th tcsv rh rcsv = Ok (r, n) ->
     exists figs, generate_boxplots Fig generate_boxplot th tcsv rh rcsv = Ok figs
       /\ map fst figs = map cell_type_value CELL_TYPES
       /\ forall c, exists lr ln, dict_get r (cell_type_value c) = Some lr
            /\ dict_get n (cell_type_value c) = Some ln
            /\ dict_get figs (cell_type_value c)
               = Some (generate_boxplot (cell_type_value c) lr ln))
  /\ (forall e, calculate_responders th tcsv rh rcsv = Err e ->
        generate_boxplots Fig generate_boxplot th tcsv rh rcsv = Err e).
Proof.
  split.
  - intros r n H.
    pose proof (foldM_responders_entries th rh rcsv tcsv init_state (r, n)
                  init_all_cell_entries H) as Hent.
    destruct (Hent B_CELL) as [[r1 R1] [n1 N1]]. destruct (Hent CD8_T_CELL) as [[r2 R2] [n2 N2]].
    destruct (Hent CD4_T_CELL) as [[r3 R3] [n3 N3]]. destruct (Hent NK_CELL) as [[r4 R4] [n4 N4]].
    destruct (Hent MONOCYTE) as [[r5 R5] [n5 N5]].
    cbn [fst snd] in R1, N1, R2, N2, R3, N3, R4, N4, R5, N5.
    unfold generate_boxplots. rewrite H. cbn [bind foldM CELL_TYPES].
    unfold dict_index. rewrite R1, N1. cbn [bind]. rewrite R2, N2. cbn [bind].
    rewrite R3, N3. cbn [bind]. rewrite R4, N4. cbn [bind]. rewrite R5, N5. cbn [bind].
    eexists. split; [reflexivity|]. split; [reflexivity|].
    intros c. destruct c; do 2 eexists.
    + split; [exact R1|]. split; [exact N1 | reflexivity].
    + split; [exact R2|]. split; [exact N2 | reflexivity].
    + split; [exact R3|]. split; [exact N3 | reflexivity].
    + split; [exact R4|]. split; [exact N4 | reflexivity].
    + split; [exact R5|]. split; [exact N5 | reflexivity].
  - intros e H. unfold generate_boxplots. rewrite H. reflexivity.
Qed.

Lemma generate_boxplots_result_witness :
  exists figs,
    generate_boxplots (list Q * list Q) (fun _ lr ln => (lr, ln)) treatment_headers_std
      [["S1"; "tr1"; "PBMC"; "y"; "10"; "20"; "30"; "20"; "20"]] relative_headers_std
      [["S1"; "100"; "b_cell"; "10"; "10.00"]] = Ok figs
    /\ map fst figs = map cell_type_value CELL_TYPES
    /\ forall c, exists lr ln,
         dict_get (dict_set init_counter "b_cell" [10 + 0 / 100]%Q) (cell_type_value c) = Some lr
         /\ dict_get init_counter (cell_type_value c) = Some ln
         /\ dict_get figs (cell_type_value c) = Some (lr, ln).
Proof.
  apply (proj1 (generate_boxplots_result (list Q * list Q) (fun _ lr ln => (lr, ln))
                  treatment_headers_std [["S1"; "tr1"; "PBMC"; "y"; "10"; "20"; "30"; "20"; "20"]]
                  relative_headers_std [["S1"; "100"; "b_cell"; "10"; "10.00"]])).
  vm_compute. reflexivity.
Defined.

(* ------------------------------------------------------------------ *)
(** ** The relative-count table generated from the treatment table *)































(* ------------------------------------------------------------------ *)
(** ** The analyzer's entry point *)

Lemma convert_cell_count_header (hdrs : CsvHeaders) (rows out : Csv) :
  convert_cell_count hdrs rows = Ok out -> exists rel, out = OUTPUT_HEADERS :: rel.
Proof.
  intros H. destruct (convert_rows_loop hdrs rows [OUTPUT_HEADERS] out H) as [blocks [-> _]].
  exists (List.concat blocks). reflexivity.
Qed.

(** The relative table the analyzer works on.  Without a relative-count
    file (no path, an empty one, or a path that is not a regular file) it
    is the converter's output without its header row, with the standard
    header positions, and the [IndexError] of [pop(0)] never happens; the
    converter's output is written, unchanged, to the given path exactly
    when that path was given and does not exist, and a converter exception
    is raised unchanged.  With a file, the table is the one [read_csv]
    returns and nothing is written. *)
Theorem analyzer_relative_branches (Fig : Type) (read_rows : string -> string -> result Csv)
    (path_isfile path_exists : string -> bool) (a : analyzer_args) (th : CsvHeaders) (tcsv : Csv) :
  let rel_path := match aa_relative_csv a with Some p => p | None => "" end in
  (truthy_path (aa_relative_csv a) = false \/ path_isfile rel_path = false ->
     (forall out, convert_cell_count th tcsv = Ok out ->
        exists rel, out = OUTPUT_HEADERS :: rel
          /\ analyzer_relative Fig read_rows path_isfile path_exists a th tcsv
             = Ok (relative_headers_std, rel,
                   if truthy_path (aa_relative_csv a) && negb (path_exists rel_path)
                   then [EvWriteCsv (Some rel_path) out (aa_delimiter a)] else []))
     /\ (forall e, convert_cell_count th tcsv = Err e ->
           analyzer_relative Fig read_rows path_isfile path_exists a th tcsv = Err e))
  /\ (truthy_path (aa_relative_csv a) = true -> path_isfile rel_path = true ->
        forall rh rcsv,
        analyzer_relative Fig read_rows path_isfile path_exists a th tcsv = Ok (rh, rcsv, [])
        <-> read_csv read_rows rel_path OUTPUT_HEADERS (aa_delimiter a) = Ok (rh, rcsv)).
Proof.
  intros rel_path. split.
  - intros Hc.
    assert (Hcond : negb (truthy_path (aa_relative_csv a)) || negb (path_isfile rel_path) = true)
      by (destruct Hc as [H|H]; rewrite H; [reflexivity | apply orb_true_r]).
    split.
    + intros out Hout. destruct (convert_cell_count_header th tcsv out Hout) as [rel ->].
      exists rel. split; [reflexivity|].
      unfold analyzer_relative. fold rel_path. rewrite Hcond, Hout. cbn [bind].
      rewrite relative_headers_std_resolved. cbn [bind].
      destruct (truthy_path (aa_relative_csv a)); [|reflexivity].
      destruct (path_exists rel_path); reflexivity.
    + intros e He. unfold analyzer_relative. fold rel_path. rewrite Hcond, He. reflexivity.
  - intros Ht Hf rh rcsv. unfold analyzer_relative. fold rel_path. rewrite Ht, Hf. cbn [negb orb].
    destruct (read_csv read_rows rel_path OUTPUT_HEADERS (aa_delimiter a)) as [[h c]|e];
      cbn [bind]; split; intros H; try discriminate; injection H as -> ->; reflexivity.
Qed.

Lemma analyzer_relative_branches_witness :
  analyzer_relative (list Q * list Q)
    (fun _ _ => Err ValueError) (fun _ => false) (fun _ => false)
    {| aa_treatment_csv := "t.csv"; aa_relative_csv := Some "rel.csv";
       aa_boxplot_dir := None; aa_delimiter := "," |}
    treatment_headers_std [["S1"; "tr1"; "PBMC"; "y"; "1"; "1"; "1"; "1"; "1"]]
  = Ok (relative_headers_std,
        [["S1"; "5"; "b_cell"; "1"; "20.00"]; ["S1"; "5"; "cd8_t_cell"; "1"; "20.00"];
         ["S1"; "5"; "cd4_t_cell"; "1"; "20.00"]; ["S1"; "5"; "nk_cell"; "1"; "20.00"];
         ["S1"; "5"; "monocyte"; "1"; "20.00"]],
        [EvWriteCsv (Some "rel.csv")
           (OUTPUT_HEADERS ::
            [["S1"; "5"; "b_cell"; "1"; "20.00"]; ["S1"; "5"; "cd8_t_cell"; "1"; "20.00"];
             ["S1"; "5"; "cd4_t_cell"; "1"; "20.00"]; ["S1"; "5"; "nk_cell"; "1"; "20.00"];
             ["S1"; "5"; "monocyte"; "1"; "20.00"]]) ","]).
Proof.
  destruct (proj1 (analyzer_relative_branches (list Q * list Q)
                     (fun _ _ => Err ValueError) (fun _ => false) (fun _ => false)
                     {| aa_treatment_csv := "t.csv"; aa_relative_csv := Some "rel.csv";
                        aa_boxplot_dir := None; aa_delimiter := "," |}
                     treatment_headers_std [["S1"; "tr1"; "PBMC"; "y"; "1"; "1"; "1"; "1"; "1"]])
                  (or_intror eq_refl)) as [Hok _].
  destruct (Hok _ ltac:(vm_compute; reflexivity)) as [rel [Hrel Heq]].
  injection Hrel as <-. exact Heq.
Defined.

Lemma generate_boxplots_list (Fig : Type) (generate_boxplot : string -> list Q -> list Q -> Fig)
    (th : CsvHeaders) (tcsv : Csv) (rh : CsvHeaders) (rcsv : Csv) (r n : dict (list Q)) :
  calculate_responders th tcsv rh rcsv = Ok (r, n) ->
  exists lr ln : cell_type -> list Q,
    (forall c, dict_get r (cell_type_value c) = Some (lr c)
               /\ dict_get n (cell_type_value c) = Some (ln c))
    /\ generate_boxplots Fig generate_boxplot th tcsv rh rcsv
       = Ok (map (fun c => (cell_type_value c,
                            generate_boxplot (cell_type_value c) (lr c) (ln c))) CELL_TYPES).
Proof.
  intros H.
  pose proof (foldM_responders_entries th rh rcsv tcsv init_state (r, n)
                init_all_cell_entries H) as Hent.
  destruct (Hent B_CELL) as [[r1 R1] [n1 N1]]. destruct (Hent CD8_T_CELL) as [[r2 R2] [n2 N2]].
  destruct (Hent CD4_T_CELL) as [[r3 R3] [n3 N3]]. destruct (Hent NK_CELL) as [[r4 R4] [n4 N4]].
  destruct (Hent MONOCYTE) as [[r5 R5] [n5 N5]].
  cbn [fst snd] in R1, N1, R2, N2, R3, N3, R4, N4, R5, N5.
  exists (fun c => match c with B_CELL => r1 | CD8_T_CELL => r2 | CD4_T_CELL => r3
                   | NK_CELL => r4 | MONOCYTE => r5 end),
         (fun c => match c with B_CELL => n1 | CD8_T_CELL => n2 | CD4_T_CELL => n3
                   | NK_CELL => n4 | MONOCYTE => n5 end).
  split; [intros c; destruct c; split; assumption|].
  unfold generate_boxplots. rewrite H. cbn [bind foldM CELL_TYPES].
  unfold dict_index. rewrite R1, N1. cbn [bind]. rewrite R2, N2. cbn [bind].
  rewrite R3, N3. cbn [bind]. rewrite R4, N4. cbn [bind]. rewrite R5, N5. cbn [bind].
  reflexivity.
Qed.

(** The header names the analyzer requires of the treatment file. *)
Definition analyzer_required_headers : list string :=
  [SAMPLE_HEADER; TREATMENT_HEADER; SAMPLE_TYPE_HEADER; RESPONSE_HEADER]
  ++ map cell_type_value CELL_TYPES.

(** A run of the analyzer whose reads and aggregation succeed: the
    treatment file is read with its four columns and the five cell types
    required ([+ list(CELL_TYPES)] does not raise, unlike the converter's
    [+ CELL_TYPES]); after the events of the relative-table step, with a
    non-empty boxplot directory the directory is created and one figure per
    cell type is saved, in enumeration order, at [<dir>/<cell type>.png],
    each built from that type's responder and non-responder lists;
    otherwise the figures are shown.  The exit code is 0. *)
Theorem analyzer_main_events (Fig : Type) (generate_boxplot : string -> list Q -> list Q -> Fig)
    (parse_args : list string -> result analyzer_args) (read_rows : string -> string -> result Csv)
    (path_isfile path_exists : string -> bool) (png_path : string -> string -> string)
    (args : list string) (a : analyzer_args) (th : CsvHeaders) (tcsv : Csv) (rh : CsvHeaders)
    (rcsv : Csv) (evs : list (io_event Fig)) (r n : dict (list Q)) :
  parse_args args = Ok a ->
  read_csv read_rows (aa_treatment_csv a) analyzer_required_headers (aa_delimiter a) = Ok (th, tcsv) ->
  analyzer_relative Fig read_rows path_isfile path_exists a th tcsv = Ok (rh, rcsv, evs) ->
  calculate_responders th tcsv rh rcsv = Ok (r, n) ->
  exists lr ln : cell_type -> list Q,
    (forall c, dict_get r (cell_type_value c) = Some (lr c)
               /\ dict_get n (cell_type_value c) = Some (ln c))
    /\ analyzer_main Fig generate_boxplot parse_args read_rows path_isfile path_exists png_path args
       = Ok ((evs ++ match aa_boxplot_dir a with
                     | Some dir =>
                         if String.eqb dir "" then [EvShow]
                         else EvMakedirs dir
                              :: map (fun c => EvSaveFig (png_path dir (cell_type_value c))
                                                 (generate_boxplot (cell_type_value c) (lr c) (ln c)))
                                     CELL_TYPES
                     | None => [EvShow]
                     end)%list, 0%Z).
Proof.
  intros Hp Hread Hrel Hcr.
  destruct (generate_boxplots_list Fig generate_boxplot th tcsv rh rcsv r n Hcr)
    as [lr [ln [Hget Hbox]]].
  exists lr, ln. split; [exact Hget|].
  unfold analyzer_main. rewrite Hp. cbn [bind py_add py_list CELL_TYPES_class].
  change ([SAMPLE_HEADER; TREATMENT_HEADER; SAMPLE_TYPE_HEADER; RESPONSE_HEADER]
          ++ map cell_type_value CELL_TYPES)%list with analyzer_required_headers.
  rewrite Hread. cbn [bind]. rewrite Hrel. cbn [bind]. rewrite Hbox. cbn [bind].
  destruct (aa_boxplot_dir a) as [dir|]; [|reflexivity].
  unfold truthy_path. destruct (String.eqb dir ""); cbn [negb]; [reflexivity|].
  rewrite map_map. reflexivity.
Qed.

Lemma analyzer_main_events_witness :
  exists lr ln : cell_type -> list Q,
    (forall c, dict_get (dict_set init_counter "b_cell" [20 + 0 / 100]%Q) (cell_type_value c)
               = Some (lr c)
               /\ dict_get init_counter (cell_type_value c) = Some (ln c))
    /\ analyzer_main (list Q * list Q) (fun _ lr ln => (lr, ln))
         (fun _ => Ok {| aa_treatment_csv := "t.csv"; aa_relative_csv := Some "rel.csv";
                         aa_boxplot_dir := Some "plots"; aa_delimiter := "," |})
         (fun p _ => if String.eqb p "t.csv"
                     then Ok [analyzer_required_headers;
                              ["S1"; "tr1"; "PBMC"; "y"; "1"; "1"; "1"; "1"; "1"]]
                     else Ok [OUTPUT_HEADERS; ["S1"; "5"; "b_cell"; "1"; "20.00"]])
         (fun _ => true) (fun _ => true) (fun d f => (d ++ "/" ++ f ++ ".png")%string)
         ["t.csv"]
       = Ok (([] ++ EvMakedirs "plots"
                 :: map (fun c => EvSaveFig ("plots/" ++ cell_type_value c ++ ".png")%string
                                    (lr c, ln c)) CELL_TYPES)%list, 0%Z).
Proof.
  apply (analyzer_main_events (list Q * list Q) (fun _ lr ln => (lr, ln))
           (fun _ => Ok {| aa_treatment_csv := "t.csv"; aa_relative_csv := Some "rel.csv";
                           aa_boxplot_dir := Some "plots"; aa_delimiter := "," |})
           (fun p _ => if String.eqb p "t.csv"
                       then Ok [analyzer_required_headers;
                                ["S1"; "tr1"; "PBMC"; "y"; "1"; "1"; "1"; "1"; "1"]]
                       else Ok [OUTPUT_HEADERS; ["S1"; "5"; "b_cell"; "1"; "20.00"]])
           (fun _ => true) (fun _ => true) (fun d f => (d ++ "/" ++ f ++ ".png")%string)
           ["t.csv"] {| aa_treatment_csv := "t.csv"; aa_relative_csv := Some "rel.csv";
                        aa_boxplot_dir := Some "plots"; aa_delimiter := "," |}
           treatment_headers_std [["S1"; "tr1"; "PBMC"; "y"; "1"; "1"; "1"; "1"; "1"]]
           relative_headers_std [["S1"; "5"; "b_cell"; "1"; "20.00"]] []
           (dict_set init_counter "b_cell" [20 + 0 / 100]%Q) init_counter);
    vm_compute; reflexivity.
Defined.
